(** * escolas_parana.py: a shallow embedding and its verified properties

    The program scrapes a JSF portal: it normalises names, resolves the
    portal's city and school codes, walks a fixed sequence of pages for each
    school, parses a summary grid and one detail table for each identifier
    of the grid, joins both and exports the result.

    Conventions of the embedding.
    - A Python [str] is a [string]; an [ascii] stands for the code point of
      the same number, so the strings of the model are the strings over
      U+0000..U+00FF (Latin-1), on which [str.lower] acts character by
      character.
    - A dictionary is a [gmap]; a list or a pandas column is a [list].
    - Exceptions are values of [exn]; the functions that talk to the portal
      run in a state and error monad whose state is the list of requests
      sent so far. *)

From Stdlib Require Import ZArith Ascii String List Bool Lia.
From stdpp Require Import gmap strings list.

Import ListNotations.
Local Open Scope string_scope.
Local Open Scope list_scope.

(** ** Characters and strings *)

Module Str.

(** [chr n] is the one-character string of code point [n]. *)
Definition chr (n : nat) : string := String (ascii_of_nat n) EmptyString.

Definition code (c : ascii) : nat := nat_of_ascii c.

Definition in_range (lo hi : nat) (c : ascii) : bool :=
  (lo <=? code c)%nat && (code c <=? hi)%nat.

Definition is_ascii_upper : ascii -> bool := in_range 65 90.
Definition is_ascii_lower : ascii -> bool := in_range 97 122.
Definition is_digit : ascii -> bool := in_range 48 57.

(** The characters of [a-zA-Z0-9]. *)
Definition is_ascii_alnum (c : ascii) : bool :=
  is_ascii_lower c || is_ascii_upper c || is_digit c.

(** The characters [\s] matches in a [str] pattern, up to U+00FF:
    TAB, LF, VT, FF, CR, the separators U+001C..U+001F, the space,
    NEL (U+0085) and the no-break space (U+00A0). *)
Definition is_space (c : ascii) : bool :=
  in_range 9 13 c || in_range 28 32 c
  || (code c =? 133)%nat || (code c =? 160)%nat.

(** [str.lower] on one code point of Latin-1: the letters A..Z and the
    capitals U+00C0..U+00DE (the multiplication sign U+00D7 excepted)
    move up by 32, everything else stays. *)
Definition lower_char (c : ascii) : ascii :=
  if is_ascii_upper c || in_range 192 214 c || in_range 216 222 c
  then ascii_of_nat (code c + 32)
  else c.

Fixpoint map (f : ascii -> ascii) (s : string) : string :=
  match s with
  | EmptyString => EmptyString
  | String c t => String (f c) (map f t)
  end.

Fixpoint filter (p : ascii -> bool) (s : string) : string :=
  match s with
  | EmptyString => EmptyString
  | String c t => if p c then String c (filter p t) else filter p t
  end.

(** [s.lower()] *)
Definition lower (s : string) : string := map lower_char s.

(** [s.replace(old, new)] for a pattern [old] of one character. *)
Fixpoint replace (old : ascii) (new : string) (s : string) : string :=
  match s with
  | EmptyString => EmptyString
  | String c t =>
      if Ascii.eqb c old then new +:+ replace old new t
      else String c (replace old new t)
  end.

(** [sub in s] *)
Fixpoint contains (sub s : string) : bool :=
  String.prefix sub s
  || match s with
     | EmptyString => false
     | String _ t => contains sub t
     end.

(** [s.split(sep)] for a non-empty [sep]: the scan goes left to right and
    never overlaps two separators. [skip] counts the characters of a
    matched separator still to pass, [cur] holds the piece being read,
    last character first. *)
Fixpoint split_aux (sep : string) (skip : nat) (cur : list ascii)
    (s : string) : list string :=
  match s with
  | EmptyString => [string_of_list_ascii (rev cur)]
  | String c t =>
      match skip with
      | S k => split_aux sep k cur t
      | O =>
          if String.prefix sep s
          then string_of_list_ascii (rev cur)
                 :: split_aux sep (String.length sep - 1) [] t
          else split_aux sep 0 (c :: cur) t
      end
  end.

Definition split (sep s : string) : list string := split_aux sep 0 [] s.

Definition dquote : string := chr 34.

End Str.

(** ** The identifier normaliser (lines 17-33) *)

Definition a_acute : ascii := ascii_of_nat 225.
Definition a_tilde : ascii := ascii_of_nat 227.
Definition space : ascii := ascii_of_nat 32.

(** [re.sub(r'[^a-zA-Z0-9\s]', '', s)] *)
Definition re_sub_special (s : string) : string :=
  Str.filter (fun c => Str.is_ascii_alnum c || Str.is_space c) s.

Definition normalize_string (s : string) : string :=
  let s := Str.lower s in
  let s := Str.replace space EmptyString
             (Str.replace a_tilde "a" (Str.replace a_acute "a" s)) in
  re_sub_special s.

(** ** Exceptions and results *)

Inductive exn : Type :=
| TypeError          (* subscripting [None] *)
| KeyError (key : string)
| IndexError
| ValueError
| AttributeError     (* a method called on [None] *)
| Exception (msg : string).

Inductive result (A : Type) : Type :=
| Ok (a : A)
| Err (e : exn).

Arguments Ok {A} a.
Arguments Err {A} e.

(** [unique l] keeps the first occurrence of every element, in order of
    appearance, as [Series.unique] does; a missing value is an element like
    the others. *)
Fixpoint unique {A} `{EqDecision A} (l : list A) : list A :=
  match l with
  | [] => []
  | x :: t => x :: filter (fun y => y <> x) (unique t)
  end.

(** ** The part of pandas the program uses *)

Inductive value : Type :=
| VNaN
| VNone
| VStr (s : string)
| VNum (z : Z).

#[global] Instance value_eq_dec : EqDecision value.
Proof. solve_decision. Defined.

(** A frame is a list of column labels and a list of rows; a row holds
    one value for each label. The labels of one frame are taken pairwise
    distinct, as the header of a parsed table gives them. *)
Record DataFrame : Type := mkFrame {
  columns : list string;
  rows : list (list value)
}.

Module Pd.

Definition isna (v : value) : bool :=
  match v with
  | VNaN | VNone => true
  | _ => false
  end.

Definition col_index (name : string) (cols : list string) : option nat :=
  fst <$> list_find (fun c => c = name) cols.

Definition has_column (name : string) (df : DataFrame) : bool :=
  bool_decide (name ∈ columns df).

(** The cell of [row] under label [name]; [VNaN] when the frame has no
    such label. *)
Definition cell (cols : list string) (name : string) (row : list value)
    : value :=
  match col_index name cols with
  | Some i => default VNaN (row !! i)
  | None => VNaN
  end.

(** [df[name]] as a list of values. *)
Definition column (name : string) (df : DataFrame) : list value :=
  List.map (cell (columns df) name) (rows df).

(** Writes [v] under [name] in one row: in place when the label exists,
    as a new last cell otherwise. *)
Definition set_cell (cols : list string) (name : string) (v : value)
    (row : list value) : list value :=
  match col_index name cols with
  | Some i => <[i := v]> row
  | None => row ++ [v]
  end.

Definition add_label (name : string) (cols : list string) : list string :=
  if bool_decide (name ∈ cols) then cols else cols ++ [name].

(** [df[name] = v] for a scalar [v]. *)
Definition set_scalar (name : string) (v : value) (df : DataFrame)
    : DataFrame :=
  mkFrame (add_label name (columns df))
          (List.map (set_cell (columns df) name v) (rows df)).

(** [df[name] = vs] for a list [vs]. A frame without rows takes the
    length of a non-empty [vs], every other cell being NaN; otherwise
    the lengths must agree. *)
Definition set_list (name : string) (vs : list value) (df : DataFrame)
    : result DataFrame :=
  match rows df with
  | [] =>
      Ok (mkFrame (add_label name (columns df))
            (List.map (fun v => set_cell (columns df) name v
                                  (repeat VNaN (length (columns df)))) vs))
  | _ :: _ =>
      if bool_decide (length vs = length (rows df))
      then Ok (mkFrame (add_label name (columns df))
                 (zip_with (fun v row => set_cell (columns df) name v row)
                    vs (rows df)))
      else Err ValueError
  end.

(** [df.columns = names] *)
Definition set_columns (names : list string) (df : DataFrame)
    : result DataFrame :=
  if bool_decide (length names = length (columns df))
  then Ok (mkFrame names (rows df))
  else Err ValueError.

(** [df.dropna(subset=name)] *)
Definition dropna (name : string) (df : DataFrame) : result DataFrame :=
  if has_column name df
  then Ok (mkFrame (columns df)
             (List.filter (fun r => negb (isna (cell (columns df) name r)))
                (rows df)))
  else Err (KeyError name).

(** [df.fillna(z)]: every missing cell of every column becomes [z]. *)
Definition fill (z : Z) (v : value) : value :=
  if isna v then VNum z else v.

Definition fillna (z : Z) (df : DataFrame) : DataFrame :=
  mkFrame (columns df) (List.map (List.map (fill z)) (rows df)).

(** The labels of the frames, each once, in order of first appearance. *)
Definition union_columns (dfs : list DataFrame) : list string :=
  unique (List.concat (List.map columns dfs)).

Definition reindex (cols : list string) (df : DataFrame)
    : list (list value) :=
  List.map (fun r => List.map (fun c => cell (columns df) c r) cols)
    (rows df).

(** [pd.concat(dfs)]: rows one frame after the other, aligned on the
    labels, NaN where a frame lacks a label. *)
Definition concat (dfs : list DataFrame) : result DataFrame :=
  match dfs with
  | [] => Err ValueError
  | _ :: _ =>
      let cols := union_columns dfs in
      Ok (mkFrame cols (List.concat (List.map (reindex cols) dfs)))
  end.

(** Two join keys match when they are equal, or both missing. *)
Definition key_match (a b : value) : bool :=
  (isna a && isna b) || (negb (isna a) && bool_decide (a = b)).

Definition drop_nth {A} (i : nat) (l : list A) : list A :=
  take i l ++ drop (S i) l.

(** A label carried by both frames, the key apart, gets a suffix. *)
Definition suffixed (sfx : string) (key : string) (others : list string)
    (c : string) : string :=
  if bool_decide (c ≠ key) && bool_decide (c ∈ others)
  then c +:+ sfx else c.

(** The rows a left row gives in a left join: one for each matching
    right row, in the right frame's order, or one padded with NaN. *)
Definition join_row (kl kr : nat) (width : nat) (right : list (list value))
    (l : list value) : list (list value) :=
  match List.filter
          (fun r => key_match (default VNaN (l !! kl))
                      (default VNaN (r !! kr))) right with
  | [] => [l ++ repeat VNaN width]
  | ms => List.map (fun r => l ++ drop_nth kr r) ms
  end.

(** [left.merge(right, on=key, how='left')] *)
Definition merge_left (key : string) (left right : DataFrame)
    : result DataFrame :=
  match col_index key (columns left), col_index key (columns right) with
  | Some kl, Some kr =>
      Ok (mkFrame
            (List.map (suffixed "_x" key (columns right)) (columns left)
             ++ List.map (suffixed "_y" key (columns left))
                  (drop_nth kr (columns right)))
            (List.concat
               (List.map (join_row kl kr (length (columns right) - 1)
                            (rows right)) (rows left))))
  | _, _ => Err (KeyError key)
  end.

End Pd.

(** ** The portal *)

(** The requests the program sends, each with the parts of it that vary;
    the fixed form fields and headers of the source are left out. *)
Inductive Request : Type :=
| GetInitial (url : string)                                    (* line 68 *)
| PostCity (windowid viewstate city_code : string)             (* line 167 *)
| GetSchool (windowid city_code school_code : string)          (* line 196 *)
| PostProfessionals (windowid viewstate school_code : string)  (* line 237 *)
| GetProfessionals (windowid : string)                         (* line 243 *)
| PostSupply (windowid viewstate : string)                     (* line 269 *)
| GetSupply (windowid : string)                                (* line 274 *)
| PostDetail (windowid viewstate : string) (id : value).       (* line 345 *)

(** An [<option>] element: [str(option)], [option.text] and
    [option['value']] ([None] when the attribute is absent). *)
Record OptionTag : Type := mkOption {
  opt_markup : string;
  opt_text : string;
  opt_value : option string
}.

(** A [<table role="grid">]: [str(cell)] for every [td] of every [tr], in
    document order, and [pd.read_html(str(table))[0]] ([None] when pandas
    finds no table in the markup). *)
Record Grid : Type := mkGrid {
  grid_cells : list (list string);
  grid_frame : option DataFrame
}.

(** A response, as the parsers of the program see it. *)
Record Page : Type := mkPage {
  status_code : Z;
  text : string;
  (** [soup.find('input', {'id': 'j_id1:javax.faces.ViewState:0'})]:
      [None] without such an element, [Some None] when it has no value *)
  viewstate_input : option (option string);
  (** [soup.find('select', {'id': 'initial:j_idt97:municipio_input'})]
      and its options *)
  municipio_select : option (list OptionTag);
  (** [soup.find('select')] and its options *)
  first_select : option (list OptionTag);
  (** [soup.find_all('table', {'role': 'grid'})] *)
  grids : list Grid;
  (** [pd.read_html(r.content)[0]], [None] when no table is found *)
  first_table : option DataFrame
}.

(** The portal answers a request in view of the requests before it. *)
Definition Portal : Type := list Request -> Request -> Page.

(** The session: the requests sent so far, oldest first. *)
Definition Session : Type := list Request.

(** ** The monad of the scraper: session state and exceptions *)

Definition M (A : Type) : Type := Session -> result A * Session.

Definition ret {A} (a : A) : M A := fun st => (Ok a, st).

Definition raise {A} (e : exn) : M A := fun st => (Err e, st).

Definition bind {A B} (m : M A) (k : A -> M B) : M B :=
  fun st =>
    match m st with
    | (Ok a, st') => k a st'
    | (Err e, st') => (Err e, st')
    end.

Notation "x <- m ;; k" := (bind m (fun x => k))
  (at level 100, m at next level, right associativity).

Definition lift {A} (r : result A) : M A := fun st => (r, st).

Definition from_option {A} (e : exn) (o : option A) : M A :=
  match o with
  | Some a => ret a
  | None => raise e
  end.

(** A [for] loop that threads an accumulator and stops at the first
    exception. *)
Fixpoint for_each {A B} (body : B -> A -> M B) (l : list A) (acc : B) : M B :=
  match l with
  | [] => ret acc
  | x :: t => acc' <- body acc x ;; for_each body t acc'
  end.

(** [soup.find('input', {...})['value']] *)
Definition viewstate_of (p : Page) : M string :=
  match viewstate_input p with
  | None => raise TypeError
  | Some None => raise (KeyError "value")
  | Some (Some v) => ret v
  end.

(** [option['value']] *)
Definition value_of (o : OptionTag) : M string :=
  from_option (KeyError "value") (opt_value o).

Definition id_value (i : option string) : value :=
  match i with
  | Some s => VStr s
  | None => VNone
  end.

(** The 7-name schema of the summary grid and the key column (line 357). *)
Definition summary_columns : list string :=
  [ "Disciplina - Fun" +:+ Str.chr 231 +:+ Str.chr 227 +:+ "o"; "Turno";
    "Demanda"; "Suprimento"; "Vagas"; "Excessos"; "Detalhes"; "ids" ].

(** ** The input catalogue (lines 36-53) *)

Record CatalogRow : Type := mkRow {
  estabelecimento_scrapping : string;
  mun2 : string
}.

Record Excel : Type := mkExcel {
  escola_normalizada : list string;
  municipio_normalizada : list string
}.

Definition extract_cities_schools (file : list CatalogRow)
    : Excel * list string :=
  let df_excel :=
    mkExcel (List.map (fun r => normalize_string (estabelecimento_scrapping r))
               file)
            (List.map (fun r => normalize_string (mun2 r)) file) in
  (df_excel, unique (municipio_normalizada df_excel)).

(** [df_excel.loc[df_excel['municipio_normalizada'] == city,
    'escola_normalizada'].unique()] *)
Definition schools_of (df_excel : Excel) (city : string) : list string :=
  unique
    (List.map snd
       (List.filter (fun p => bool_decide (fst p = city))
          (zip (municipio_normalizada df_excel)
               (escola_normalizada df_excel)))).

(** ** Identifier extraction from the summary grid (lines 284-291) *)

Definition id_marker : string := "id=" +:+ Str.dquote.

(** What one cell appends to [ids]: nothing when its markup holds
    [<div], else its identifier or [None]. The two [split]s of a string
    that holds the marker always have the pieces asked for. *)
Definition cell_ids (cell : string) : list (option string) :=
  if negb (Str.contains "<div" cell) then
    if Str.contains id_marker cell then
      [ Some (default EmptyString
                (head (Str.split Str.dquote
                         (default EmptyString
                            (Str.split id_marker cell !! 1%nat))))) ]
    else [ None ]
  else [].

Definition table_ids (cells : list (list string)) : list (option string) :=
  List.concat (List.map (fun row => List.concat (List.map cell_ids row)) cells).

(** ** The summary table and the join (lines 280-294 and 351-363) *)

(** Lines 281-294: the second grid of the page, with its identifiers as
    the column ["ids"]. *)
Definition summary_table (r : Page) : result DataFrame :=
  match grids r !! 1%nat with
  | None => Err IndexError
  | Some table =>
      let ids := table_ids (grid_cells table) in
      match grid_frame table with
      | None => Err ValueError
      | Some df_big => Pd.set_list "ids" (List.map id_value ids) df_big
      end
  end.

(** Lines 352-355: the detail records of a school. *)
Definition detail_records (city school : string) (list_df : list DataFrame)
    : result DataFrame :=
  match Pd.concat list_df with
  | Err e => Err e
  | Ok df_detail =>
      match Pd.dropna "Nome" df_detail with
      | Err e => Err e
      | Ok df_detail =>
          let df_detail := Pd.set_scalar "municipio" (VStr city) df_detail in
          Ok (Pd.set_scalar "escola" (VStr school) df_detail)
      end
  end.

(** Lines 351-363: the join of the summary grid and the detail records. *)
Definition join_tables (city school : string) (df_big : DataFrame)
    (list_df : list DataFrame) : result DataFrame :=
  match detail_records city school list_df with
  | Err e => Err e
  | Ok df_detail =>
      match Pd.set_columns summary_columns df_big with
      | Err e => Err e
      | Ok df_big =>
          match Pd.merge_left "ids" df_big df_detail with
          | Err e => Err e
          | Ok df_merged => Ok (Pd.fillna 0 df_merged)
          end
      end
  end.

(** ** The scraper *)

Definition initial_url : string :=
  "https://www.consultaescolas.pr.gov.br/consultaescolas-java"
  +:+ "/pages/templates/initial2.jsf?".

Section Scraper.

Variable portal : Portal.

(** [session.get] and [session.post]: the portal answers, the request
    joins the session. *)
Definition send (q : Request) : M Page :=
  fun st => (Ok (portal st q), st ++ [q]).

(** Lines 85-87: one option of the municipality list. The inner
    dictionary of the source has the single key ['city_code']; the map
    holds its value. *)
Definition city_code_step (dict_city_codes : gmap string string)
    (option : OptionTag) : M (gmap string string) :=
  if Str.contains "value" (opt_markup option) then
    v <- value_of option ;;
    ret (<[normalize_string (opt_text option) := v]> dict_city_codes)
  else ret dict_city_codes.

(** Lines 56-94. *)
Definition initial_request (url : string)
    : M (string * string * gmap string string) :=
  r <- send (GetInitial url) ;;
  if (status_code r =? 200)%Z then
    windowid <-
      (if Str.contains "windowId" (text r) then
         x <- from_option IndexError
                (Str.split "windowId=" (text r) !! 1%nat) ;;
         from_option IndexError (head (Str.split Str.dquote x))
       else raise (Exception "WindowId not found")) ;;
    select_tag <- from_option AttributeError (municipio_select r) ;;
    dict_city_codes <- for_each city_code_step select_tag ∅ ;;
    viewstate <- viewstate_of r ;;
    ret (windowid, viewstate, dict_city_codes)
  else raise (Exception "Error in initial request").

(** Lines 299-348: the detail request of one identifier. *)
Definition detail_step (windowid viewstate : string)
    (list_df : list DataFrame) (id : value) : M (list DataFrame) :=
  r <- send (PostDetail windowid viewstate id) ;;
  df <- from_option ValueError (first_table r) ;;
  ret (list_df ++ [Pd.set_scalar "ids" id df]).

(** Lines 192-363. *)
Definition extract_school_data
    (city city_code school school_code windowid : string) : M DataFrame :=
  r <- send (GetSchool windowid city_code school_code) ;;
  viewstate <- viewstate_of r ;;
  r <- send (PostProfessionals windowid viewstate school_code) ;;
  r <- send (GetProfessionals windowid) ;;
  viewstate <- viewstate_of r ;;
  r <- send (PostSupply windowid viewstate) ;;
  r <- send (GetSupply windowid) ;;
  viewstate <- viewstate_of r ;;
  df_big <- lift (summary_table r) ;;
  list_df <- for_each (detail_step windowid viewstate)
               (unique (Pd.column "ids" df_big)) [] ;;
  lift (join_tables city school df_big list_df).

(** Lines 183-187: one option of the school list of a city. *)
Definition school_step (city city_code windowid : string)
    (school_list : list string) (list_df_schools : list DataFrame)
    (option : OptionTag) : M (list DataFrame) :=
  if Str.contains "value" (opt_markup option) then
    if bool_decide (normalize_string (opt_text option) ∈ school_list) then
      school_code <- value_of option ;;
      df_escola <- extract_school_data city city_code (opt_text option)
                     school_code windowid ;;
      ret (list_df_schools ++ [df_escola])
    else ret list_df_schools
  else ret list_df_schools.

(** Lines 115-187: one municipality. *)
Definition city_step (windowid viewstate : string)
    (dict_city_codes : gmap string string) (df_excel : Excel)
    (list_df_schools : list DataFrame) (city : string)
    : M (list DataFrame) :=
  let school_list := schools_of df_excel city in
  city_code <- from_option (KeyError city) (dict_city_codes !! city) ;;
  r <- send (PostCity windowid viewstate city_code) ;;
  match first_select r with
  | None => ret list_df_schools
  | Some option_tag =>
      if bool_decide (length option_tag = 0%nat) then ret list_df_schools
      else for_each (school_step city city_code windowid school_list)
             option_tag list_df_schools
  end.

(** Lines 97-189. *)
Definition extract_city_data (windowid viewstate : string)
    (dict_city_codes : gmap string string) (df_excel : Excel)
    (list_cities : list string) : M (list DataFrame) :=
  for_each (city_step windowid viewstate dict_city_codes df_excel)
    list_cities [].

(** Lines 366-375. The frame returned is the one written to
    [escolas_parana.csv]; an exception leaves no file written. *)
Definition main (file : list CatalogRow) : M DataFrame :=
  let (df_excel, list_cities) := extract_cities_schools file in
  init <- initial_request initial_url ;;
  let '(windowid, viewstate, dict_city_codes) := init in
  list_dataframes <- extract_city_data windowid viewstate dict_city_codes
                       df_excel list_cities ;;
  lift (Pd.concat list_dataframes).

End Scraper.

(** ** A small portal and catalogue, used to run the model *)

Module Sample.

Definition blank : Page :=
  mkPage 200 EmptyString None None None [] None.

Definition with_viewstate (v : string) : Page :=
  mkPage 200 EmptyString (Some (Some v)) None None [] None.

Definition option_tag (label code : string) : OptionTag :=
  mkOption ("<option value=" +:+ Str.dquote +:+ code +:+ Str.dquote +:+ ">"
            +:+ label +:+ "</option>")
           label (Some code).

Definition initial_page : Page :=
  mkPage 200
    ("<a href=" +:+ Str.dquote +:+ "initial2.jsf?windowId=w1" +:+ Str.dquote
     +:+ ">")
    (Some (Some "v0"))
    (Some [ mkOption "<option>Selecione...</option>" "Selecione..." None;
            option_tag "Curitiba" "10"; option_tag "Londrina" "20" ])
    None [] None.

Definition schools_page (city_code : string) : Page :=
  mkPage 200 EmptyString None None
    (Some (if bool_decide (city_code = "10")
           then [ option_tag "Escola A" "1"; option_tag "Escola B" "2" ]
           else [ option_tag "Escola C" "3" ]))
    [] None.

Definition plain_cell (s : string) : string :=
  "<td><div>" +:+ s +:+ "</div></td>".

Definition link_cell (id : string) : string :=
  "<td><a id=" +:+ Str.dquote +:+ id +:+ Str.dquote +:+ ">+</a></td>".

Definition summary_row (subject : string) (last : string) : list string :=
  [ plain_cell subject; plain_cell "M"; plain_cell "2"; plain_cell "1";
    plain_cell "1"; plain_cell "0"; last ].

(** A summary grid of three rows; the second has no identifier. *)
Definition summary_grid : Grid :=
  mkGrid
    [ [];
      summary_row "Arte" (link_cell "f:0");
      summary_row "Fisica" "<td></td>";
      summary_row "Quimica" (link_cell "f:2") ]
    (Some (mkFrame [ "A"; "B"; "C"; "D"; "E"; "F"; "G" ]
             [ [ VStr "Arte"; VStr "M"; VNum 2; VNum 1; VNum 1; VNum 0; VNaN ];
               [ VStr "Fisica"; VStr "M"; VNum 2; VNum 1; VNum 1; VNum 0;
                 VNaN ];
               [ VStr "Quimica"; VStr "M"; VNum 2; VNum 1; VNum 1; VNum 0;
                 VNaN ] ])).



Definition supply_page : Page :=
  mkPage 200 EmptyString (Some (Some "v3")) None None
    [ mkGrid [] None; summary_grid ] None.

(** The detail table of an identifier: two teachers for ["f:0"], one
    for ["f:2"], a single empty line for anything else. *)
Definition detail_page (id : value) : Page :=
  mkPage 200 EmptyString None None None []
    (Some (mkFrame [ "Nome"; "Cargo" ]
             (if bool_decide (id = VStr "f:0")
              then [ [ VStr "Ana"; VStr "QPM" ]; [ VStr "Bia"; VStr "PSS" ] ]
              else if bool_decide (id = VStr "f:2")
              then [ [ VStr "Caio"; VStr "QPM" ] ]
              else [ [ VNaN; VNaN ] ]))).

(** The portal; the first page of the school of code [broken] has no
    view-state input. *)
Definition portal (broken : string) : Portal :=
  fun _ q =>
    match q with
    | GetInitial _ => initial_page
    | PostCity _ _ city_code => schools_page city_code
    | GetSchool _ _ school_code =>
        if bool_decide (school_code = broken) then blank
        else with_viewstate "v1"
    | PostProfessionals _ _ _ => blank
    | GetProfessionals _ => with_viewstate "v2"
    | PostSupply _ _ => blank
    | GetSupply _ => supply_page
    | PostDetail _ _ id => detail_page id
    end.

(** The same portal, except that the detail table of ["f:2"] has its
    header and no line. *)
Definition vacant_portal : Portal :=
  fun st q =>
    match q with
    | PostDetail _ _ (VStr "f:2") =>
        mkPage 200 EmptyString None None None []
          (Some (mkFrame [ "Nome"; "Cargo" ] []))
    | _ => portal "none" st q
    end.

(** A summary table with the given identifiers, and the detail table
    of one identifier with the given names. *)
Definition big (ids : list value) : DataFrame :=
  mkFrame [ "A"; "B"; "C"; "D"; "E"; "F"; "G"; "ids" ]
    (List.map
       (fun id => [ VStr "Arte"; VStr "M"; VNum 2; VNum 1; VNum 1; VNum 0;
                    VNaN; id ])
       ids).

Definition detail (id : value) (names : list string) : DataFrame :=
  mkFrame [ "Nome"; "ids" ] (List.map (fun n => [ VStr n; id ]) names).

(** The value of a result that is known to be [Ok]. *)
Definition get (r : result DataFrame) : DataFrame :=
  match r with
  | Ok df => df
  | Err _ => mkFrame [] []
  end.

Definition catalogue : list CatalogRow :=
  [ mkRow "ESCOLA A" "Curitiba"; mkRow "Escola B" "Curitiba";
    mkRow "Escola C" "Londrina" ].

(** A catalogue that asks for a municipality the portal does not list. *)
Definition catalogue_foz : list CatalogRow :=
  [ mkRow "Escola A" "Curitiba"; mkRow "Escola F" "Foz";
    mkRow "Escola C" "Londrina" ].

End Sample.

(** ** The normaliser as the specification words it, and as amended *)

Module Spec.

(** An accented vowel of Latin-1 folds to its plain form. *)
Definition fold_accent (c : ascii) : ascii :=
  if Str.in_range 224 229 c then "a"%char
  else if Str.in_range 232 235 c then "e"%char
  else if Str.in_range 236 239 c then "i"%char
  else if Str.in_range 242 246 c then "o"%char
  else if Str.in_range 249 252 c then "u"%char
  else c.

(** Lowercase, fold the accented vowels, strip all whitespace, strip
    what is not ASCII alphanumeric. *)
Definition normalize (s : string) : string :=
  Str.filter Str.is_ascii_alnum
    (Str.filter (fun c => negb (Str.is_space c))
       (Str.map fold_accent (Str.lower s))).

(** Two spellings of one name: equal up to case and accents. *)
Definition same_name (x y : string) : Prop :=
  Str.map fold_accent (Str.lower x) = Str.map fold_accent (Str.lower y).

End Spec.

(** What the normaliser makes of one character: a letter in lowercase,
    a digit, [a] for the four forms of a-acute and a-tilde, a whitespace
    character other than the space as it is, nothing for the rest. *)
Definition key_of_char (c : ascii) : string :=
  if Str.is_ascii_upper c then Str.chr (Str.code c + 32)
  else if Str.is_ascii_lower c || Str.is_digit c then String c EmptyString
  else if bool_decide (Str.code c ∈ [193; 195; 225; 227]) then "a"
  else if Str.is_space c && negb (Ascii.eqb c space)
       then String c EmptyString
  else EmptyString.

Fixpoint key_of (s : string) : string :=
  match s with
  | EmptyString => EmptyString
  | String c t => key_of_char c +:+ key_of t
  end.

(** The characters a key is made of. *)
Definition is_key_char (c : ascii) : bool :=
  Str.is_ascii_lower c || Str.is_digit c
  || (Str.is_space c && negb (Ascii.eqb c space)).

(** The only accent folding of the code: a-acute and a-tilde. *)
Definition fold_a (c : ascii) : ascii :=
  if Ascii.eqb c a_acute || Ascii.eqb c a_tilde then "a"%char else c.

Module Names.
Definition sao_paulo : string := "S" +:+ Str.chr 227 +:+ "o Paulo".
Definition sao_paulo_plain : string := "SAO PAULO".
Definition jose : string := "Jos" +:+ Str.chr 233.
Definition jose_plain : string := "Jose".
Definition tabbed : string := "a" +:+ Str.chr 9 +:+ "b".
End Names.

(** ** Token threading along a session *)

Definition token_of (q : Request) : option string :=
  match q with
  | PostCity _ v _ | PostProfessionals _ v _ | PostSupply _ v
  | PostDetail _ v _ => Some v
  | _ => None
  end.

Definition is_fetch (q : Request) : bool :=
  match token_of q with
  | Some _ => false
  | None => true
  end.

(** The token a page shows in its view-state input. *)
Definition captured (p : Page) : option string :=
  match viewstate_input p with
  | Some (Some v) => Some v
  | _ => None
  end.

(** [threaded portal st cur sent]: along the requests [sent], issued after
    the session [st], every submission carries the token [cur] captured
    from the page fetched last before it. *)
Fixpoint threaded (portal : Portal) (st : Session) (cur : option string)
    (sent : list Request) : Prop :=
  match sent with
  | [] => True
  | q :: rest =>
      (is_fetch q = false -> token_of q = cur)
      /\ threaded portal (st ++ [q])
           (if is_fetch q then captured (portal st q) else cur) rest
  end.

(** ** Join keys *)

(** The key of a summary row and of a detail record in the join. *)
Definition summary_key (l : list value) : value :=
  Pd.cell summary_columns "ids" l.

Definition detail_key (df_detail : DataFrame) (r : list value) : value :=
  Pd.cell (columns df_detail) "ids" r.

(** The detail records a summary row is joined with. *)
Definition matches (df_detail : DataFrame) (l : list value)
    : list (list value) :=
  List.filter (fun r => Pd.key_match (summary_key l) (detail_key df_detail r))
    (rows df_detail).

(** No two rows carry matching keys. *)
Definition distinct_keys (keys : list value) : Prop :=
  forall i j a b, keys !! i = Some a -> keys !! j = Some b ->
    Pd.key_match a b = true -> i = j.

(** A cell whose markup holds no [<div]. *)
Definition block_free (cell : string) : bool :=
  negb (Str.contains "<div" cell).

(** A frame whose rows are as wide as its header. *)
Definition well_formed (df : DataFrame) : Prop :=
  Forall (fun r => length r = length (columns df)) (rows df).


(** ** Requests seen from outside *)

(** The window identifier a request carries. *)
Definition window_of (q : Request) : option string :=
  match q with
  | GetInitial _ => None
  | PostCity w _ _ | GetSchool w _ _ | PostProfessionals w _ _
  | GetProfessionals w | PostSupply w _ | GetSupply w | PostDetail w _ _ =>
      Some w
  end.

(** A request of a run with window identifier [windowid] and initial token
    [viewstate]: it carries the identifier, and the initial token when it
    selects a municipality. *)
Definition carries (windowid viewstate : string) (q : Request) : Prop :=
  window_of q = Some windowid
  /\ match q with
     | PostCity _ v _ => v = viewstate
     | _ => True
     end.

(** [sends P m]: from any session, [m] only appends requests, all
    satisfying [P]. *)
Definition sends {A} (P : Request -> Prop) (m : M A) : Prop :=
  forall st, exists sent, snd (m st) = st ++ sent /\ Forall P sent.

(** The entries lines 85-87 write into the city code map, in order. *)
Definition city_entries (select_tag : list OptionTag)
    : list (string * string) :=
  omap (fun o => if Str.contains "value" (opt_markup o)
                 then pair (normalize_string (opt_text o)) <$> opt_value o
                 else None)
    select_tag.

(** An option of a city's list that line 184-185 selects. *)
Definition selected (school_list : list string) (o : OptionTag) : bool :=
  Str.contains "value" (opt_markup o)
  && bool_decide (normalize_string (opt_text o) ∈ school_list).

(** A string without the character [c]. *)
Definition lacks (c : ascii) (s : string) : Prop :=
  Str.contains (String c EmptyString) s = false.

(** ** The navigation of one school, seen from outside *)

(** The four requests that lead to the supply page. *)
Definition navigation (windowid city_code school_code v1 v2 : string)
    : list Request :=
  [ GetSchool windowid city_code school_code;
    PostProfessionals windowid v1 school_code;
    GetProfessionals windowid;
    PostSupply windowid v2 ].

(** The supply page the portal answers with after that navigation. *)
Definition supply_response (portal : Portal) (st : Session)
    (windowid city_code school_code v1 v2 : string) : Page :=
  portal (st ++ navigation windowid city_code school_code v1 v2)
    (GetSupply windowid).

(** The three pages of the navigation show the tokens [v1], [v2], [v3]. *)
Definition reaches (portal : Portal) (st : Session)
    (windowid city_code school_code v1 v2 v3 : string) : Prop :=
  viewstate_input (portal st (GetSchool windowid city_code school_code))
  = Some (Some v1)
  /\ viewstate_input
       (portal (st ++ [GetSchool windowid city_code school_code;
                       PostProfessionals windowid v1 school_code])
          (GetProfessionals windowid))
     = Some (Some v2)
  /\ viewstate_input
       (supply_response portal st windowid city_code school_code v1 v2)
     = Some (Some v3).

(** ** Occurrences of a separator *)

(** [ends_only c sep]: the character [c] occurs in [sep] at its end or
    not at all. *)
Fixpoint ends_only (c : ascii) (sep : string) : bool :=
  match sep with
  | EmptyString => true
  | String a rest =>
      if Ascii.eqb a c
      then match rest with
           | EmptyString => true
           | String _ _ => false
           end
      else ends_only c rest
  end.

(** No occurrence of [sep] in [pre +:+ s] starts inside [pre]. *)
Definition starts_after (sep pre s : string) : Prop :=
  forall t1 t2, pre = t1 +:+ t2 -> t2 <> EmptyString ->
    String.prefix sep (t2 +:+ s) = false.

(** ** Portals that fail in one way, used to run the model *)

Module Probes.

(** The first page answers with status 500. *)
Definition down : Portal :=
  fun st q =>
    match q with
    | GetInitial _ => mkPage 500 EmptyString None None None [] None
    | _ => Sample.portal "none" st q
    end.

(** The first page mentions no window identifier. *)
Definition no_window : Portal :=
  fun st q =>
    match q with
    | GetInitial _ => mkPage 200 "<html></html>" None None None [] None
    | _ => Sample.portal "none" st q
    end.

(** The first page mentions windowId without assigning it. *)
Definition no_assignment : Portal :=
  fun st q =>
    match q with
    | GetInitial _ =>
        mkPage 200 "<script>var windowId;</script>" None None None [] None
    | _ => Sample.portal "none" st q
    end.

(** The municipality list holds an option without value attribute whose
    label contains the word value. *)
Definition no_value : Portal :=
  fun st q =>
    match q with
    | GetInitial _ =>
        mkPage 200 (text Sample.initial_page) (Some (Some "v0"))
          (Some [ Sample.option_tag "Curitiba" "10";
                  mkOption "<option>Boa value</option>" "Boa value" None ])
          None [] None
    | _ => Sample.portal "none" st q
    end.

(** A portal that answers like the sample one, except for the supply
    page. *)
Definition with_supply (p : Page) : Portal :=
  fun st q =>
    match q with
    | GetSupply _ => p
    | _ => Sample.portal "none" st q
    end.

(** A supply page with one grid only. *)
Definition one_grid : Page :=
  mkPage 200 EmptyString (Some (Some "v3")) None None [ mkGrid [] None ] None.

(** A supply page whose summary grid has its header and no line. *)
Definition empty_grid : Page :=
  mkPage 200 EmptyString (Some (Some "v3")) None None
    [ mkGrid [] None;
      mkGrid [ [] ]
        (Some (mkFrame [ "A"; "B"; "C"; "D"; "E"; "F"; "G" ] [])) ]
    None.

(** A supply page whose summary grid has two columns. *)
Definition narrow_grid : Page :=
  mkPage 200 EmptyString (Some (Some "v3")) None None
    [ mkGrid [] None;
      mkGrid [ [ Sample.plain_cell "Arte"; Sample.link_cell "f:0" ] ]
        (Some (mkFrame [ "A"; "B" ] [ [ VStr "Arte"; VNaN ] ])) ]
    None.

(** A portal that answers the detail request of the null identifier
    without any table. *)
Definition no_detail : Portal :=
  fun st q =>
    match q with
    | PostDetail _ _ VNone => Sample.blank
    | _ => Sample.portal "none" st q
    end.



(** The school a session is visiting: the code of the school page it
    fetched last. *)
Definition school_of_session (st : Session) : option string :=
  fold_left
    (fun cur q =>
       match q with
       | GetSchool _ _ school_code => Some school_code
       | _ => cur
       end)
    st None.

(** A portal whose detail tables have one more column, "Vinculo", at the
    school of code 2. *)
Definition uneven : Portal :=
  fun st q =>
    match q with
    | PostDetail _ _ id =>
        if bool_decide (school_of_session st = Some "2") then
          mkPage 200 EmptyString None None None []
            (Some (mkFrame [ "Nome"; "Cargo"; "Vinculo" ]
                     (if bool_decide (id = VStr "f:0")
                      then [ [ VStr "Dora"; VStr "QPM"; VStr "Efetivo" ] ]
                      else [ [ VNaN; VNaN; VNaN ] ])))
        else Sample.detail_page id
    | _ => Sample.portal "none" st q
    end.

End Probes.

(** * Properties *)

(** ** The normaliser *)

Lemma filter_append p (s1 s2 : string) :
  Str.filter p (s1 +:+ s2) = Str.filter p s1 +:+ Str.filter p s2.
Proof.
  induction s1 as [|c s1 IH]; simpl; [reflexivity|].
  rewrite IH. destruct (p c); reflexivity.
Qed.

Lemma normalize_cons (c : ascii) (t : string) :
  normalize_string (String c t) = key_of_char c +:+ normalize_string t.
Proof.
  destruct c as [[] [] [] [] [] [] [] []]; reflexivity.
Qed.

Lemma normalize_key_of (s : string) : normalize_string s = key_of s.
Proof.
  induction s as [|c t IH]; [reflexivity|].
  rewrite normalize_cons, IH. reflexivity.
Qed.

Lemma append_assoc (s1 s2 s3 : string) :
  (s1 +:+ s2) +:+ s3 = s1 +:+ (s2 +:+ s3).
Proof.
  induction s1 as [|c s1 IH]; [reflexivity|].
  change (String c ((s1 +:+ s2) +:+ s3) = String c (s1 +:+ (s2 +:+ s3))).
  f_equal. exact IH.
Qed.

Lemma key_of_append (s1 s2 : string) :
  key_of (s1 +:+ s2) = key_of s1 +:+ key_of s2.
Proof.
  induction s1 as [|c s1 IH]; simpl; [reflexivity|].
  rewrite IH. symmetry. apply append_assoc.
Qed.

Lemma key_of_char_stable (c : ascii) : key_of (key_of_char c) = key_of_char c.
Proof.
  destruct c as [[] [] [] [] [] [] [] []]; reflexivity.
Qed.

Lemma key_of_char_chars (c : ascii) :
  Str.filter is_key_char (key_of_char c) = key_of_char c.
Proof.
  destruct c as [[] [] [] [] [] [] [] []]; reflexivity.
Qed.

Lemma key_of_idempotent (s : string) : key_of (key_of s) = key_of s.
Proof.
  induction s as [|c t IH]; [reflexivity|].
  simpl. rewrite key_of_append, key_of_char_stable, IH. reflexivity.
Qed.

Lemma key_of_chars (s : string) : Str.filter is_key_char (key_of s) = key_of s.
Proof.
  induction s as [|c t IH]; [reflexivity|].
  simpl. rewrite filter_append, key_of_char_chars, IH. reflexivity.
Qed.

Lemma replace_cons (old : ascii) (new : string) (c : ascii) (t : string) :
  Str.replace old new (String c t)
  = if Ascii.eqb c old then new +:+ Str.replace old new t
    else String c (Str.replace old new t).
Proof. reflexivity. Qed.

Lemma replace_fold_a (s : string) :
  Str.replace a_tilde "a" (Str.replace a_acute "a" s) = Str.map fold_a s.
Proof.
  induction s as [|c t IH]; [reflexivity|].
  change (Str.map fold_a (String c t))
    with (String (fold_a c) (Str.map fold_a t)).
  rewrite <- IH, (replace_cons a_acute). unfold fold_a.
  destruct (Ascii.eqb c a_acute) eqn:E1.
  - reflexivity.
  - rewrite replace_cons. destruct (Ascii.eqb c a_tilde); reflexivity.
Qed.

(** C4, as amended. The normaliser works character by character: it
    lowercases the ASCII letters, keeps the digits, turns the four forms of
    a-acute and a-tilde into [a], keeps the whitespace characters other
    than the space, and drops every other character, the other accented
    vowels included; a key holds lowercase ASCII letters, digits and such
    whitespace only, and the key of Sao Paulo, written with a-tilde, is
    "saopaulo". *)
Theorem normalize_string_by_character :
  (forall s, normalize_string s = key_of s)
  /\ (forall s, Str.filter is_key_char (normalize_string s)
                = normalize_string s)
  /\ normalize_string Names.sao_paulo = "saopaulo".
Proof.
  split; [exact normalize_key_of|]. split; [|reflexivity].
  intros s. rewrite normalize_key_of. apply key_of_chars.
Qed.

(** C4, counterexample. The key of Jose, written with e-acute, is "jos"
    where folding every accented vowel gives "jose", and a tabulation
    survives in the key where stripping all whitespace removes it. *)
Lemma normalize_string_not_spec :
  normalize_string Names.jose = "jos"
  /\ Spec.normalize Names.jose = "jose"
  /\ normalize_string Names.tabbed = Names.tabbed
  /\ Spec.normalize Names.tabbed = "ab"
  /\ ~ (forall s, normalize_string s = Spec.normalize s).
Proof.
  repeat split; try reflexivity.
  intros H. specialize (H Names.jose). vm_compute in H. discriminate H.
Qed.

(** C9, as amended. The normaliser is idempotent, and two spellings that
    agree once lowercased and once a-acute and a-tilde are read as [a]
    have the same key. *)
Theorem normalize_string_idempotent :
  (forall x, normalize_string (normalize_string x) = normalize_string x)
  /\ (forall x y,
        Str.map fold_a (Str.lower x) = Str.map fold_a (Str.lower y) ->
        normalize_string x = normalize_string y).
Proof.
  split.
  - intros x. rewrite !normalize_key_of. apply key_of_idempotent.
  - intros x y H. unfold normalize_string. rewrite !replace_fold_a, H.
    reflexivity.
Qed.

Lemma normalize_string_idempotent_witness :
  normalize_string (normalize_string Names.sao_paulo)
  = normalize_string Names.sao_paulo
  /\ normalize_string Names.sao_paulo
     = normalize_string Names.sao_paulo_plain.
Proof.
  split.
  - apply (proj1 normalize_string_idempotent).
  - apply (proj2 normalize_string_idempotent). reflexivity.
Defined.

(** C9, counterexample. Jose with e-acute and Jose without are two
    spellings of one name, differing by an accent, and their keys differ. *)
Lemma normalize_string_accent_sensitive :
  Spec.same_name Names.jose Names.jose_plain
  /\ normalize_string Names.jose = "jos"
  /\ normalize_string Names.jose_plain = "jose"
  /\ normalize_string Names.jose <> normalize_string Names.jose_plain.
Proof.
  repeat split; try reflexivity.
  vm_compute. discriminate.
Qed.

(** ** The monad *)

Lemma for_each_app {A B} (body : B -> A -> M B) (l1 l2 : list A) (acc : B)
    (st : Session) :
  for_each body (l1 ++ l2) acc st
  = match for_each body l1 acc st with
    | (Ok acc', st') => for_each body l2 acc' st'
    | (Err e, st') => (Err e, st')
    end.
Proof.
  revert acc st. induction l1 as [|x l1 IH]; intros acc st; [reflexivity|].
  simpl. unfold bind. destruct (body acc x st) as [[acc'|e] st'];
    [apply IH | reflexivity].
Qed.

(** ** Exceptions end the run *)

(** C2, as amended. When a requested municipality has no entry in the city
    code map, the lookup raises [KeyError]: the run ends there with that
    exception, no later municipality is requested and no export is
    written, whatever was collected before. *)
Theorem unknown_city_aborts_run (portal : Portal) (file : list CatalogRow)
    (windowid viewstate : string) (dict : gmap string string)
    (st0 st1 : Session) (before after : list string) (city : string)
    (collected : list DataFrame) :
  initial_request portal initial_url []
  = (Ok (windowid, viewstate, dict), st0) ->
  snd (extract_cities_schools file) = before ++ city :: after ->
  extract_city_data portal windowid viewstate dict
    (fst (extract_cities_schools file)) before st0 = (Ok collected, st1) ->
  dict !! city = None ->
  main portal file [] = (Err (KeyError city), st1).
Proof.
  intros Hinit Hcities Hbefore Hnone.
  unfold main. destruct (extract_cities_schools file) as [df_excel cities].
  simpl in *. subst cities.
  unfold bind at 1. rewrite Hinit.
  unfold bind at 1. unfold extract_city_data in *.
  rewrite for_each_app, Hbefore. simpl.
  unfold bind at 1. unfold city_step at 1. unfold bind at 1.
  rewrite Hnone. reflexivity.
Qed.

Lemma unknown_city_aborts_run_witness :
  main (Sample.portal "none") Sample.catalogue_foz []
  = (Err (KeyError "foz"),
     snd (extract_city_data (Sample.portal "none") "w1" "v0"
            (<["londrina" := "20"]> (<["curitiba" := "10"]> ∅))
            (fst (extract_cities_schools Sample.catalogue_foz))
            ["curitiba"] [GetInitial initial_url])).
Proof.
  apply (unknown_city_aborts_run (Sample.portal "none") Sample.catalogue_foz
           "w1" "v0" (<["londrina" := "20"]> (<["curitiba" := "10"]> ∅))
           [GetInitial initial_url] _ ["curitiba"] ["londrina"] "foz"
           (match fst (extract_city_data (Sample.portal "none") "w1" "v0"
                         (<["londrina" := "20"]> (<["curitiba" := "10"]> ∅))
                         (fst (extract_cities_schools Sample.catalogue_foz))
                         ["curitiba"] [GetInitial initial_url]) with
            | Ok l => l
            | Err _ => []
            end)).
  - vm_compute. reflexivity.
  - vm_compute. reflexivity.
  - vm_compute. reflexivity.
  - vm_compute. reflexivity.
Defined.

(** C2, counterexample. The catalogue asks for Curitiba, Foz and Londrina
    and the portal lists no Foz: the run ends with [KeyError] at Foz,
    nothing is exported, and Londrina, which the portal knows, is never
    requested. *)
Lemma unknown_city_not_skipped :
  fst (main (Sample.portal "none") Sample.catalogue_foz [])
  = Err (KeyError "foz")
  /\ snd (extract_cities_schools Sample.catalogue_foz)
     = ["curitiba"; "foz"; "londrina"]
  /\ (PostCity "w1" "v0" "10"
        ∈ snd (main (Sample.portal "none") Sample.catalogue_foz []))
  /\ (PostCity "w1" "v0" "20"
        ∉ snd (main (Sample.portal "none") Sample.catalogue_foz [])).
Proof.
  repeat split; try (vm_compute; reflexivity).
  - vm_compute. apply list_elem_of_In. simpl. tauto.
  - intros H. apply list_elem_of_In in H. vm_compute in H.
    repeat (destruct H as [H|H]; [discriminate H|]). exact H.
Qed.

(** C1, as amended. When the extraction of a school raises an exception,
    nothing catches it: the run ends there with that exception, no later
    school or municipality is requested and no export is written, whatever
    was collected for the schools before. *)
Theorem school_failure_aborts_run (portal : Portal) (file : list CatalogRow)
    (windowid viewstate : string) (dict : gmap string string)
    (st0 st1 st2 st3 : Session) (before after : list string)
    (city city_code school_code : string)
    (collected collected' : list DataFrame)
    (opts_before opts_after : list OptionTag) (option : OptionTag)
    (e : exn) :
  initial_request portal initial_url []
  = (Ok (windowid, viewstate, dict), st0) ->
  snd (extract_cities_schools file) = before ++ city :: after ->
  extract_city_data portal windowid viewstate dict
    (fst (extract_cities_schools file)) before st0 = (Ok collected, st1) ->
  dict !! city = Some city_code ->
  first_select (portal st1 (PostCity windowid viewstate city_code))
  = Some (opts_before ++ option :: opts_after) ->
  for_each
    (school_step portal city city_code windowid
       (schools_of (fst (extract_cities_schools file)) city))
    opts_before collected (st1 ++ [PostCity windowid viewstate city_code])
  = (Ok collected', st2) ->
  Str.contains "value" (opt_markup option) = true ->
  normalize_string (opt_text option)
    ∈ schools_of (fst (extract_cities_schools file)) city ->
  opt_value option = Some school_code ->
  extract_school_data portal city city_code (opt_text option) school_code
    windowid st2 = (Err e, st3) ->
  main portal file [] = (Err e, st3).
Proof.
  intros Hinit Hcities Hbefore Hcode Hsel Hopts Hval Hin Hsc Hfail.
  unfold main. destruct (extract_cities_schools file) as [df_excel cities].
  simpl in *. subst cities.
  unfold bind at 1. rewrite Hinit.
  unfold bind at 1. unfold extract_city_data in *.
  rewrite for_each_app, Hbefore.
  change (for_each ?f (city :: after) collected st1)
    with (bind (f collected city) (fun acc' => for_each f after acc') st1).
  unfold bind at 1. unfold city_step at 1.
  unfold bind at 1. rewrite Hcode. simpl from_option. unfold ret at 1.
  unfold bind at 1. unfold send at 1. rewrite Hsel.
  rewrite bool_decide_eq_false_2
    by (rewrite length_app; simpl; lia).
  rewrite for_each_app, Hopts.
  change (for_each ?f (option :: opts_after) collected' st2)
    with (bind (f collected' option) (fun acc' => for_each f opts_after acc')
            st2).
  unfold bind at 1. unfold school_step at 1. rewrite Hval.
  rewrite bool_decide_eq_true_2 by exact Hin.
  unfold bind at 1. unfold value_of. rewrite Hsc. simpl from_option.
  unfold ret at 1. unfold bind at 1. rewrite Hfail. reflexivity.
Qed.

Lemma school_failure_aborts_run_witness :
  main (Sample.portal "2") Sample.catalogue []
  = (Err TypeError,
     snd (extract_school_data (Sample.portal "2") "curitiba" "10" "Escola A"
            "1" "w1" [GetInitial initial_url; PostCity "w1" "v0" "10"])
     ++ [GetSchool "w1" "10" "2"]).
Proof.
  apply (school_failure_aborts_run (Sample.portal "2") Sample.catalogue
           "w1" "v0" (<["londrina" := "20"]> (<["curitiba" := "10"]> ∅))
           [GetInitial initial_url] [GetInitial initial_url]
           (snd (extract_school_data (Sample.portal "2") "curitiba" "10"
                   "Escola A" "1" "w1"
                   [GetInitial initial_url; PostCity "w1" "v0" "10"]))
           _ [] ["londrina"] "curitiba" "10" "2" []
           (match fst (extract_school_data (Sample.portal "2") "curitiba" "10"
                         "Escola A" "1" "w1"
                         [GetInitial initial_url; PostCity "w1" "v0" "10"]) with
            | Ok df => [df]
            | Err _ => []
            end)
           [Sample.option_tag "Escola A" "1"] []
           (Sample.option_tag "Escola B" "2")).
  - vm_compute. reflexivity.
  - vm_compute. reflexivity.
  - vm_compute. reflexivity.
  - vm_compute. reflexivity.
  - vm_compute. reflexivity.
  - vm_compute. reflexivity.
  - vm_compute. reflexivity.
  - apply list_elem_of_In. vm_compute. tauto.
  - vm_compute. reflexivity.
  - vm_compute. reflexivity.
Defined.

(** C1, counterexample. The catalogue asks for two schools of Curitiba and
    one of Londrina; the first page of the second school has no view-state
    input. The table of the first school is collected, the second school
    raises [TypeError], and the run ends with it: nothing is exported and
    the school of Londrina is never requested. *)
Lemma school_failure_not_scoped :
  (exists df st,
      extract_school_data (Sample.portal "2") "curitiba" "10" "Escola A"
        "1" "w1" [GetInitial initial_url; PostCity "w1" "v0" "10"]
      = (Ok df, st))
  /\ fst (main (Sample.portal "2") Sample.catalogue []) = Err TypeError
  /\ last (snd (main (Sample.portal "2") Sample.catalogue []))
     = Some (GetSchool "w1" "10" "2")
  /\ (GetSchool "w1" "20" "3"
        ∉ snd (main (Sample.portal "2") Sample.catalogue []))
  /\ (GetSchool "w1" "20" "3"
        ∈ snd (main (Sample.portal "none") Sample.catalogue [])).
Proof.
  split; [|split; [|split; [|split]]].
  - eexists _, _. vm_compute. reflexivity.
  - vm_compute. reflexivity.
  - vm_compute. reflexivity.
  - intros H. apply list_elem_of_In in H. vm_compute in H.
    repeat (destruct H as [H|H]; [discriminate H|]). exact H.
  - apply list_elem_of_In. vm_compute. tauto.
Qed.

Lemma bind_ok {A B} (m : M A) (k : A -> M B) (st st' : Session) (b : B) :
  bind m k st = (Ok b, st') ->
  exists a st1, m st = (Ok a, st1) /\ k a st1 = (Ok b, st').
Proof.
  unfold bind. destruct (m st) as [[a|e] st1]; [eauto | intros [=]].
Qed.

Lemma lift_ok {A} (r : result A) (st st' : Session) (a : A) :
  lift r st = (Ok a, st') -> r = Ok a /\ st' = st.
Proof. unfold lift. intros [= -> ->]. auto. Qed.

Lemma send_ok (portal : Portal) (q : Request) (st st' : Session) (p : Page) :
  send portal q st = (Ok p, st') -> p = portal st q /\ st' = st ++ [q].
Proof. unfold send. intros [= <- <-]. auto. Qed.

Lemma viewstate_of_ok (p : Page) (st st' : Session) (v : string) :
  viewstate_of p st = (Ok v, st') ->
  viewstate_input p = Some (Some v) /\ st' = st.
Proof.
  unfold viewstate_of, raise, ret.
  destruct (viewstate_input p) as [[v'|]|]; intros [=]; subst; auto.
Qed.

Lemma bind_err {A B} (m : M A) (k : A -> M B) (st st' : Session) (e : exn) :
  bind m k st = (Err e, st') ->
  m st = (Err e, st')
  \/ exists a st1, m st = (Ok a, st1) /\ k a st1 = (Err e, st').
Proof.
  unfold bind. destruct (m st) as [[a|e'] st1]; [eauto | intros [= -> ->]].
  left. reflexivity.
Qed.

Lemma lift_err {A} (r : result A) (st st' : Session) (e : exn) :
  lift r st = (Err e, st') -> st' = st.
Proof. unfold lift. intros [= _ ->]. reflexivity. Qed.

Lemma send_err (portal : Portal) (q : Request) (st st' : Session) (e : exn) :
  send portal q st = (Err e, st') -> False.
Proof. unfold send. intros [=]. Qed.

Lemma viewstate_of_err (p : Page) (st st' : Session) (e : exn) :
  viewstate_of p st = (Err e, st') -> captured p = None /\ st' = st.
Proof.
  unfold viewstate_of, captured, raise, ret.
  destruct (viewstate_input p) as [[v'|]|]; intros [=]; subst; auto.
Qed.

Lemma viewstate_of_captured (p : Page) (st st' : Session) (v : string) :
  viewstate_of p st = (Ok v, st') -> captured p = Some v /\ st' = st.
Proof.
  intros H. apply viewstate_of_ok in H as [H ->].
  unfold captured. rewrite H. auto.
Qed.

(** ** The requests of one school *)

Lemma detail_loop_trace (portal : Portal) (w v : string) (ids : list value)
    (acc : list DataFrame) (st : Session) :
  exists k,
    snd (for_each (detail_step portal w v) ids acc st)
    = st ++ List.map (PostDetail w v) (take k ids).
Proof.
  revert acc st. induction ids as [|id ids IH]; intros acc st.
  - exists 0%nat. simpl. rewrite app_nil_r. reflexivity.
  - simpl. unfold bind at 1. unfold detail_step at 1.
    unfold bind at 1. unfold send at 1. unfold bind at 1.
    destruct (first_table (portal st (PostDetail w v id))) as [df|].
    + simpl from_option. unfold ret at 1 2.
      destruct (IH (acc ++ [Pd.set_scalar "ids" id df])
                  (st ++ [PostDetail w v id])) as [k Hk].
      exists (S k). rewrite Hk, <- app_assoc. reflexivity.
    + exists 1%nat. simpl. unfold raise. simpl. rewrite ?take_0. reflexivity.
Qed.

Lemma detail_loop_ok (portal : Portal) (w v : string) (ids : list value)
    (acc list_df : list DataFrame) (st st' : Session) :
  for_each (detail_step portal w v) ids acc st = (Ok list_df, st') ->
  st' = st ++ List.map (PostDetail w v) ids.
Proof.
  revert acc st. induction ids as [|id ids IH]; intros acc st.
  - simpl. unfold ret. intros [= _ <-]. rewrite app_nil_r. reflexivity.
  - simpl. unfold bind at 1. unfold detail_step at 1.
    unfold bind at 1. unfold send at 1. unfold bind at 1.
    destruct (first_table (portal st (PostDetail w v id))) as [df|].
    + simpl from_option. unfold ret at 1 2. intros H.
      apply IH in H. rewrite H, <- app_assoc. reflexivity.
    + simpl. unfold raise. intros [=].
Qed.

Lemma threaded_details (portal : Portal) (st : Session) (w v : string)
    (ids : list value) :
  threaded portal st (Some v) (List.map (PostDetail w v) ids).
Proof.
  revert st. induction ids as [|id ids IH]; intros st; simpl; [exact I|].
  split; [reflexivity | apply IH].
Qed.

(** What a successful extraction has done. *)
Lemma extract_school_data_ok (portal : Portal)
    (city city_code school school_code windowid : string)
    (st st' : Session) (df : DataFrame) :
  extract_school_data portal city city_code school school_code windowid st
  = (Ok df, st') ->
  exists v1 v2 v3 df_big list_df,
    viewstate_input (portal st (GetSchool windowid city_code school_code))
    = Some (Some v1)
    /\ viewstate_input
         (portal (st ++ [GetSchool windowid city_code school_code;
                         PostProfessionals windowid v1 school_code])
            (GetProfessionals windowid))
       = Some (Some v2)
    /\ viewstate_input
         (portal (st ++ [GetSchool windowid city_code school_code;
                         PostProfessionals windowid v1 school_code;
                         GetProfessionals windowid;
                         PostSupply windowid v2])
            (GetSupply windowid))
       = Some (Some v3)
    /\ summary_table
         (portal (st ++ [GetSchool windowid city_code school_code;
                         PostProfessionals windowid v1 school_code;
                         GetProfessionals windowid;
                         PostSupply windowid v2])
            (GetSupply windowid))
       = Ok df_big
    /\ st' = st ++ [GetSchool windowid city_code school_code;
                    PostProfessionals windowid v1 school_code;
                    GetProfessionals windowid;
                    PostSupply windowid v2;
                    GetSupply windowid]
                ++ List.map (PostDetail windowid v3)
                     (unique (Pd.column "ids" df_big))
    /\ join_tables city school df_big list_df = Ok df.
Proof.
  intros H. unfold extract_school_data in H.
  apply bind_ok in H as (r1 & s1 & H1 & H). apply send_ok in H1 as [-> ->].
  apply bind_ok in H as (v1 & s1 & E1 & H).
  apply viewstate_of_ok in E1 as [E1 ->].
  apply bind_ok in H as (r2 & s2 & H2 & H). apply send_ok in H2 as [-> ->].
  apply bind_ok in H as (r3 & s3 & H3 & H). apply send_ok in H3 as [-> ->].
  apply bind_ok in H as (v2 & s3 & E2 & H).
  apply viewstate_of_ok in E2 as [E2 ->].
  apply bind_ok in H as (r4 & s4 & H4 & H). apply send_ok in H4 as [-> ->].
  apply bind_ok in H as (r5 & s5 & H5 & H). apply send_ok in H5 as [-> ->].
  apply bind_ok in H as (v3 & s5 & E3 & H).
  apply viewstate_of_ok in E3 as [E3 ->].
  apply bind_ok in H as (df_big & s6 & E4 & H). apply lift_ok in E4 as [E4 ->].
  apply bind_ok in H as (list_df & s7 & E5 & H). apply lift_ok in H as [H ->].
  apply detail_loop_ok in E5.
  rewrite <- !app_assoc in *. simpl app in *.
  exists v1, v2, v3, df_big, list_df. auto 10.
Qed.

(** C5. Along the requests of one school, every submission carries the
    view-state token captured from the page fetched just before it: the
    token shown by the school page goes into the request for the
    professionals page, the token shown by the professionals page into the
    request for the supply page, and the token shown by the supply page
    into every detail request. This holds for the requests sent up to an
    exception as well. *)
Theorem viewstate_token_threading (portal : Portal)
    (city city_code school school_code windowid : string) (st : Session) :
  exists sent,
    snd (extract_school_data portal city city_code school school_code
           windowid st) = st ++ sent
    /\ threaded portal st None sent
    /\ (forall df,
          fst (extract_school_data portal city city_code school school_code
                 windowid st) = Ok df ->
          exists v1 v2 v3 ids,
            captured (portal st (GetSchool windowid city_code school_code))
            = Some v1
            /\ captured
                 (portal (st ++ [GetSchool windowid city_code school_code;
                                 PostProfessionals windowid v1 school_code])
                    (GetProfessionals windowid))
               = Some v2
            /\ captured
                 (portal (st ++ [GetSchool windowid city_code school_code;
                                 PostProfessionals windowid v1 school_code;
                                 GetProfessionals windowid;
                                 PostSupply windowid v2])
                    (GetSupply windowid))
               = Some v3
            /\ sent = [GetSchool windowid city_code school_code;
                       PostProfessionals windowid v1 school_code;
                       GetProfessionals windowid;
                       PostSupply windowid v2;
                       GetSupply windowid]
                      ++ List.map (PostDetail windowid v3) ids).
Proof.
  destruct (extract_school_data portal city city_code school school_code
              windowid st) as [[df|e] st'] eqn:Hrun; simpl.
  - (* the extraction succeeded *)
    destruct (extract_school_data_ok _ _ _ _ _ _ _ _ _ Hrun)
      as (v1 & v2 & v3 & df_big & list_df & E1 & E2 & E3 & _ & -> & _).
    assert (C1 : captured (portal st (GetSchool windowid city_code school_code))
                 = Some v1) by (unfold captured; rewrite E1; reflexivity).
    assert (C2 : captured
                   (portal (st ++ [GetSchool windowid city_code school_code;
                                   PostProfessionals windowid v1 school_code])
                      (GetProfessionals windowid)) = Some v2)
      by (unfold captured; rewrite E2; reflexivity).
    assert (C3 : captured
                   (portal (st ++ [GetSchool windowid city_code school_code;
                                   PostProfessionals windowid v1 school_code;
                                   GetProfessionals windowid;
                                   PostSupply windowid v2])
                      (GetSupply windowid)) = Some v3)
      by (unfold captured; rewrite E3; reflexivity).
    eexists. split; [reflexivity|]. split.
    + simpl. rewrite C1. rewrite <- !app_assoc. simpl app.
      rewrite C2, C3.
      repeat (split; [intros; first [reflexivity | discriminate]|]).
      apply threaded_details.
    + intros df' _. exists v1, v2, v3, (unique (Pd.column "ids" df_big)).
      auto.
  - (* an exception: the requests sent before it *)
    unfold extract_school_data in Hrun.
    apply bind_err in Hrun as [H|(r1 & s1 & H1 & Hrun)];
      [destruct (send_err _ _ _ _ _ H)|].
    apply send_ok in H1 as [-> ->].
    apply bind_err in Hrun as [H|(v1 & s1 & C1 & Hrun)].
    { apply viewstate_of_err in H as [C1 ->]. eexists. split; [reflexivity|].
      split; [|intros ? [=]]. simpl. auto. }
    apply viewstate_of_captured in C1 as [C1 ->].
    apply bind_err in Hrun as [H|(r2 & s2 & H2 & Hrun)];
      [destruct (send_err _ _ _ _ _ H)|].
    apply send_ok in H2 as [-> ->].
    apply bind_err in Hrun as [H|(r3 & s3 & H3 & Hrun)];
      [destruct (send_err _ _ _ _ _ H)|].
    apply send_ok in H3 as [-> ->].
    apply bind_err in Hrun as [H|(v2 & s3 & C2 & Hrun)].
    { apply viewstate_of_err in H as [C2 ->].
      exists [GetSchool windowid city_code school_code;
              PostProfessionals windowid v1 school_code;
              GetProfessionals windowid].
      split; [rewrite <- !app_assoc; reflexivity|].
      split; [|intros ? [=]]. simpl. rewrite C1.
      repeat (split; [intros; first [reflexivity | discriminate]|]).
      exact I. }
    apply viewstate_of_captured in C2 as [C2 ->].
    apply bind_err in Hrun as [H|(r4 & s4 & H4 & Hrun)];
      [destruct (send_err _ _ _ _ _ H)|].
    apply send_ok in H4 as [-> ->].
    apply bind_err in Hrun as [H|(r5 & s5 & H5 & Hrun)];
      [destruct (send_err _ _ _ _ _ H)|].
    apply send_ok in H5 as [-> ->].
    apply bind_err in Hrun as [H|(v3 & s5 & C3 & Hrun)].
    { apply viewstate_of_err in H as [C3 ->].
      exists [GetSchool windowid city_code school_code;
              PostProfessionals windowid v1 school_code;
              GetProfessionals windowid;
              PostSupply windowid v2;
              GetSupply windowid].
      split; [rewrite <- !app_assoc; reflexivity|].
      split; [|intros ? [=]]. simpl. rewrite C1, C2.
      repeat (split; [intros; first [reflexivity | discriminate]|]).
      exact I. }
    apply viewstate_of_captured in C3 as [C3 ->].
    assert (Hsent : exists ids,
               st' = st ++ [GetSchool windowid city_code school_code;
                            PostProfessionals windowid v1 school_code;
                            GetProfessionals windowid;
                            PostSupply windowid v2;
                            GetSupply windowid]
                        ++ List.map (PostDetail windowid v3) ids).
    { apply bind_err in Hrun as [H|(df_big & s6 & E4 & Hrun)].
      { apply lift_err in H as ->. exists [].
        rewrite <- !app_assoc. reflexivity. }
      apply lift_ok in E4 as [E4 ->].
      apply bind_err in Hrun as [H|(list_df & s7 & E5 & Hrun)].
      - match type of H with
        | for_each _ ?ids _ ?s = _ =>
            destruct (detail_loop_trace portal windowid v3 ids [] s) as [k Hk]
        end.
        rewrite H in Hk. simpl in Hk. eexists. rewrite Hk.
        rewrite <- !app_assoc. reflexivity.
      - apply lift_err in Hrun as ->. apply detail_loop_ok in E5.
        eexists. rewrite E5, <- !app_assoc. reflexivity. }
    destruct Hsent as [ids ->].
    eexists. split; [reflexivity|]. split; [|intros ? [=]].
    simpl. rewrite C1, C2, C3.
    repeat (split; [intros; first [reflexivity | discriminate]|]).
    apply threaded_details.
Qed.

(** ** Distinct identifiers *)

Lemma elem_of_unique {A} `{EqDecision A} (l : list A) (x : A) :
  x ∈ unique l <-> x ∈ l.
Proof.
  induction l as [|y l IH]; simpl; [reflexivity|].
  rewrite !elem_of_cons, list_elem_of_filter, IH.
  destruct (decide (x = y)); tauto.
Qed.

Lemma NoDup_unique {A} `{EqDecision A} (l : list A) : NoDup (unique l).
Proof.
  induction l as [|y l IH]; simpl; constructor.
  - rewrite list_elem_of_filter. tauto.
  - apply NoDup_filter, IH.
Qed.

(** C3, as amended. When the extraction of a school succeeds, the requests
    it has sent are the five navigation requests followed by exactly one
    detail request for each distinct value of the identifier column of the
    summary table, in order of first appearance; the null identifier is
    one of these values, so a table with a row without identifier gives
    one detail request with a null identifier. *)
Theorem detail_request_per_identifier (portal : Portal)
    (city city_code school school_code windowid : string)
    (st st' : Session) (df : DataFrame) :
  extract_school_data portal city city_code school school_code windowid st
  = (Ok df, st') ->
  exists v1 v2 v3 df_big,
    summary_table
      (portal (st ++ [GetSchool windowid city_code school_code;
                      PostProfessionals windowid v1 school_code;
                      GetProfessionals windowid;
                      PostSupply windowid v2])
         (GetSupply windowid))
    = Ok df_big
    /\ st' = st ++ [GetSchool windowid city_code school_code;
                    PostProfessionals windowid v1 school_code;
                    GetProfessionals windowid;
                    PostSupply windowid v2;
                    GetSupply windowid]
                ++ List.map (PostDetail windowid v3)
                     (unique (Pd.column "ids" df_big))
    /\ NoDup (unique (Pd.column "ids" df_big))
    /\ (forall id, id ∈ unique (Pd.column "ids" df_big)
                   <-> id ∈ Pd.column "ids" df_big)
    /\ (VNone ∈ Pd.column "ids" df_big ->
        PostDetail windowid v3 VNone ∈ st').
Proof.
  intros Hrun.
  destruct (extract_school_data_ok _ _ _ _ _ _ _ _ _ Hrun)
    as (v1 & v2 & v3 & df_big & list_df & _ & _ & _ & Hsum & -> & _).
  exists v1, v2, v3, df_big.
  split; [exact Hsum|]. split; [reflexivity|].
  split; [apply NoDup_unique|]. split; [intros id; apply elem_of_unique|].
  intros Hnone. rewrite !elem_of_app. right. right.
  apply list_elem_of_In, in_map, list_elem_of_In, elem_of_unique, Hnone.
Qed.

Lemma detail_request_per_identifier_witness :
  exists v1 v2 v3 df_big,
    summary_table
      (Sample.portal "none"
         ([] ++ [GetSchool "w1" "10" "1"; PostProfessionals "w1" v1 "1";
                 GetProfessionals "w1"; PostSupply "w1" v2])
         (GetSupply "w1"))
    = Ok df_big
    /\ snd (extract_school_data (Sample.portal "none") "curitiba" "10"
              "Escola A" "1" "w1" [])
       = [] ++ [GetSchool "w1" "10" "1"; PostProfessionals "w1" v1 "1";
                GetProfessionals "w1"; PostSupply "w1" v2; GetSupply "w1"]
            ++ List.map (PostDetail "w1" v3) (unique (Pd.column "ids" df_big))
    /\ NoDup (unique (Pd.column "ids" df_big))
    /\ (forall id, id ∈ unique (Pd.column "ids" df_big)
                   <-> id ∈ Pd.column "ids" df_big)
    /\ (VNone ∈ Pd.column "ids" df_big ->
        PostDetail "w1" v3 VNone
          ∈ snd (extract_school_data (Sample.portal "none") "curitiba" "10"
                   "Escola A" "1" "w1" [])).
Proof.
  apply (detail_request_per_identifier (Sample.portal "none") "curitiba" "10"
           "Escola A" "1" "w1" []
           (snd (extract_school_data (Sample.portal "none") "curitiba" "10"
                   "Escola A" "1" "w1" []))
           (match fst (extract_school_data (Sample.portal "none") "curitiba"
                         "10" "Escola A" "1" "w1" []) with
            | Ok d => d
            | Err _ => mkFrame [] []
            end)).
  vm_compute. reflexivity.
Defined.

(** C3, counterexample. The summary table of the sample school has three
    rows, the second with a null identifier, and the extraction sends a
    detail request for the null identifier, between those of the two
    others. *)
Lemma null_identifier_requested :
  (exists df_big,
      summary_table Sample.supply_page = Ok df_big
      /\ Pd.column "ids" df_big = [VStr "f:0"; VNone; VStr "f:2"])
  /\ snd (extract_school_data (Sample.portal "none") "curitiba" "10"
            "Escola A" "1" "w1" [])
     = [GetSchool "w1" "10" "1"; PostProfessionals "w1" "v1" "1";
        GetProfessionals "w1"; PostSupply "w1" "v2"; GetSupply "w1";
        PostDetail "w1" "v3" (VStr "f:0"); PostDetail "w1" "v3" VNone;
        PostDetail "w1" "v3" (VStr "f:2")].
Proof.
  split; [eexists; split|]; vm_compute; reflexivity.
Qed.

(** ** Frames *)

Lemma col_index_Some (name : string) (cols : list string) (i : nat) :
  Pd.col_index name cols = Some i <->
  cols !! i = Some name /\ forall j, (j < i)%nat -> cols !! j <> Some name.
Proof.
  unfold Pd.col_index. split.
  - destruct (list_find _ cols) as [[i' x]|] eqn:E; [|discriminate].
    simpl. intros [= <-]. apply list_find_Some in E as (Hi & -> & Hmin).
    split; [exact Hi|]. intros j Hj Hjn. exact (Hmin j name Hjn Hj eq_refl).
  - intros [Hi Hmin].
    assert (E : list_find (fun c => c = name) cols = Some (i, name)).
    { apply list_find_Some. split; [exact Hi|]. split; [reflexivity|].
      intros j y Hy Hj ->. exact (Hmin j Hj Hy). }
    rewrite E. reflexivity.
Qed.

Lemma col_index_None (name : string) (cols : list string) :
  Pd.col_index name cols = None <-> name ∉ cols.
Proof.
  unfold Pd.col_index. destruct (list_find _ cols) as [[i x]|] eqn:E; simpl.
  - apply list_find_Some in E as (Hi & -> & _).
    split; [discriminate|]. intros Hn. destruct Hn.
    eapply list_elem_of_lookup_2, Hi.
  - apply list_find_None in E. split; [|reflexivity]. intros _ Hin.
    rewrite Forall_forall in E. exact (E name Hin eq_refl).
Qed.

Lemma cell_set_cell (cols : list string) (name : string) (v : value)
    (row : list value) :
  length row = length cols ->
  Pd.cell (Pd.add_label name cols) name (Pd.set_cell cols name v row) = v.
Proof.
  intros Hlen. unfold Pd.cell, Pd.set_cell, Pd.add_label.
  destruct (Pd.col_index name cols) as [i|] eqn:E.
  - pose proof E as E'. apply col_index_Some in E' as [Hi _].
    rewrite bool_decide_eq_true_2 by (eapply list_elem_of_lookup_2, Hi).
    rewrite E. rewrite list_lookup_insert_eq; [reflexivity|].
    rewrite Hlen. eapply lookup_lt_Some, Hi.
  - pose proof E as E'. apply col_index_None in E'.
    rewrite bool_decide_eq_false_2 by exact E'.
    assert (E2 : Pd.col_index name (cols ++ [name]) = Some (length cols)).
    { apply col_index_Some. split.
      - rewrite lookup_app_r, Nat.sub_diag by lia. reflexivity.
      - intros j Hj Hjn. rewrite lookup_app_l in Hjn by exact Hj.
        apply E'. eapply list_elem_of_lookup_2, Hjn. }
    rewrite E2, <- Hlen, lookup_app_r, Nat.sub_diag by lia. reflexivity.
Qed.




(** ** The identifiers of the summary grid *)

Lemma split_aux_cons (sep : string) (skip : nat) (cur : list ascii)
    (c : ascii) (t : string) :
  Str.split_aux sep skip cur (String c t)
  = match skip with
    | S k => Str.split_aux sep k cur t
    | O =>
        if String.prefix sep (String c t)
        then string_of_list_ascii (rev cur)
               :: Str.split_aux sep (String.length sep - 1) [] t
        else Str.split_aux sep 0 (c :: cur) t
    end.
Proof. reflexivity. Qed.

Lemma split_aux_nonempty (sep : string) (skip : nat) (cur : list ascii)
    (s : string) :
  Str.split_aux sep skip cur s <> [].
Proof.
  revert skip cur. induction s as [|c t IH]; intros skip cur.
  - intros H. simpl in H. discriminate H.
  - rewrite split_aux_cons. destruct skip; [|apply IH].
    destruct (String.prefix sep (String c t));
      [intros H; discriminate H | apply IH].
Qed.

Lemma split_second (sep s : string) (cur : list ascii) :
  sep <> EmptyString ->
  Str.contains sep s = true ->
  exists piece, Str.split_aux sep 0 cur s !! 1%nat = Some piece.
Proof.
  intros Hsep. revert cur. induction s as [|c t IH]; intros cur H.
  - destruct sep; [contradiction|]. discriminate H.
  - rewrite split_aux_cons.
    change (Str.contains sep (String c t))
      with (String.prefix sep (String c t) || Str.contains sep t) in H.
    destruct (String.prefix sep (String c t)) eqn:E.
    + pose proof (split_aux_nonempty sep (String.length sep - 1) [] t) as Hn.
      destruct (Str.split_aux sep (String.length sep - 1) [] t) as [|p ps];
        [contradiction|].
      exists p. reflexivity.
    + simpl in H. apply IH, H.
Qed.

Lemma split_head (sep s : string) :
  exists piece, head (Str.split sep s) = Some piece.
Proof.
  pose proof (split_aux_nonempty sep 0 [] s) as Hn. unfold Str.split.
  destruct (Str.split_aux sep 0 [] s) as [|p ps]; [contradiction|].
  exists p. reflexivity.
Qed.

Lemma id_marker_nonempty : id_marker <> EmptyString.
Proof. discriminate. Qed.

Lemma cell_ids_cases (cell : string) :
  (block_free cell = false /\ cell_ids cell = [])
  \/ (block_free cell = true /\ Str.contains id_marker cell = false
      /\ cell_ids cell = [None])
  \/ (block_free cell = true /\ Str.contains id_marker cell = true
      /\ exists piece i,
           Str.split id_marker cell !! 1%nat = Some piece
           /\ head (Str.split Str.dquote piece) = Some i
           /\ cell_ids cell = [Some i]).
Proof.
  unfold cell_ids, block_free.
  destruct (Str.contains "<div" cell); simpl; [left; auto|].
  right. destruct (Str.contains id_marker cell) eqn:E; [right|left; auto].
  destruct (split_second id_marker cell [] id_marker_nonempty E)
    as [piece Hp].
  destruct (split_head Str.dquote piece) as [i Hi].
  split; [reflexivity|]. split; [reflexivity|]. exists piece, i.
  unfold Str.split in *. rewrite Hp. simpl default. rewrite Hi.
  auto.
Qed.








(** ** The join *)

Lemma key_match_sym (a b : value) : Pd.key_match a b = Pd.key_match b a.
Proof.
  unfold Pd.key_match.
  destruct a, b; simpl; try reflexivity;
    repeat case_bool_decide; congruence.
Qed.

Lemma key_match_trans (a b c : value) :
  Pd.key_match a b = true -> Pd.key_match b c = true ->
  Pd.key_match a c = true.
Proof.
  unfold Pd.key_match.
  destruct a, b, c; simpl; try reflexivity; try discriminate;
    repeat case_bool_decide; simpl; congruence.
Qed.

(** What a successful join is made of. *)
Lemma join_tables_ok (city school : string) (df_big : DataFrame)
    (list_df : list DataFrame) (joined : DataFrame) :
  join_tables city school df_big list_df = Ok joined ->
  exists df_detail kr,
    detail_records city school list_df = Ok df_detail
    /\ Pd.col_index "ids" (columns df_detail) = Some kr
    /\ columns joined
       = List.map (Pd.suffixed "_x" "ids" (columns df_detail)) summary_columns
         ++ List.map (Pd.suffixed "_y" "ids" summary_columns)
              (Pd.drop_nth kr (columns df_detail))
    /\ rows joined
       = List.map (List.map (Pd.fill 0))
           (List.concat
              (List.map
                 (fun l =>
                    match matches df_detail l with
                    | [] => [l ++ repeat VNaN (length (columns df_detail) - 1)]
                    | ms => List.map (fun r => l ++ Pd.drop_nth kr r) ms
                    end)
                 (rows df_big))).
Proof.
  unfold join_tables.
  destruct (detail_records city school list_df) as [df_detail|] eqn:Hd;
    [|discriminate].
  unfold Pd.set_columns. case_bool_decide; [|discriminate].
  unfold Pd.merge_left. simpl columns. simpl rows.
  change (Pd.col_index "ids" summary_columns) with (Some 7%nat).
  destruct (Pd.col_index "ids" (columns df_detail)) as [kr|] eqn:Hkr;
    [|discriminate].
  intros [= <-]. exists df_detail, kr.
  split; [reflexivity|]. split; [exact Hkr|]. split; [reflexivity|].
  simpl. f_equal. f_equal. apply map_ext. intros l.
  unfold Pd.join_row, matches, detail_key, Pd.cell. rewrite Hkr.
  reflexivity.
Qed.

Lemma list_sum_map_add {A} (f g : A -> nat) (l : list A) :
  list_sum (List.map (fun x => f x + g x)%nat l)
  = (list_sum (List.map f l) + list_sum (List.map g l))%nat.
Proof. induction l as [|x l IH]; simpl; lia. Qed.

Lemma list_sum_map_const {A} (f : A -> nat) (l : list A) (n : nat) :
  (forall x, x ∈ l -> f x = n) ->
  list_sum (List.map f l) = (n * length l)%nat.
Proof.
  induction l as [|x l IH]; intros H; simpl; [lia|].
  rewrite (H x) by apply list_elem_of_here.
  rewrite IH by (intros y Hy; apply H, list_elem_of_further, Hy). lia.
Qed.

(** Counting the pairs of a relation by rows or by columns. *)
Lemma count_pairs {A B} (m : A -> B -> bool) (L : list A) (R : list B) :
  list_sum (List.map (fun l => length (List.filter (m l) R)) L)
  = list_sum
      (List.map
         (fun r => list_sum (List.map (fun l => if m l r then 1 else 0)%nat L))
         R).
Proof.
  induction R as [|r R IH]; simpl.
  - apply (list_sum_map_const _ L 0). reflexivity.
  - rewrite <- IH, <- list_sum_map_add. f_equal. apply map_ext. intros l.
    destruct (m l r); reflexivity.
Qed.

Lemma distinct_keys_tail (k : value) (ks : list value) :
  distinct_keys (k :: ks) -> distinct_keys ks.
Proof.
  intros H i j a b Hi Hj Hm.
  assert (S i = S j) by (apply (H (S i) (S j) a b); assumption). lia.
Qed.

(** With distinct keys, a key that occurs among them matches exactly one. *)
Lemma matched_once (L : list (list value)) (k : value) :
  distinct_keys (List.map summary_key L) ->
  (exists l, l ∈ L /\ Pd.key_match (summary_key l) k = true) ->
  list_sum
    (List.map (fun l => if Pd.key_match (summary_key l) k then 1 else 0)%nat L)
  = 1%nat.
Proof.
  induction L as [|l L IH]; intros Hd [l0 [Hin Hm]].
  - inversion Hin.
  - simpl. destruct (Pd.key_match (summary_key l) k) eqn:E.
    + rewrite (list_sum_map_const _ L 0); [lia|].
      intros l' Hl'. destruct (Pd.key_match (summary_key l') k) eqn:E';
        [|reflexivity].
      apply list_elem_of_lookup in Hl' as [j Hj].
      assert (0 = S j)%nat; [|lia].
      apply (Hd 0%nat (S j) (summary_key l) (summary_key l')).
      * reflexivity.
      * simpl. rewrite list_lookup_fmap, Hj. reflexivity.
      * eapply key_match_trans; [exact E|]. rewrite key_match_sym. exact E'.
    + rewrite IH; [reflexivity | eapply distinct_keys_tail, Hd |].
      apply elem_of_cons in Hin as [->|Hin]; [congruence|eauto].
Qed.

Lemma fill_repeat_nan (n : nat) :
  List.map (Pd.fill 0) (repeat VNaN n) = repeat (VNum 0) n.
Proof.
  induction n as [|n IH]; [reflexivity|]. simpl. rewrite IH. reflexivity.
Qed.

Lemma unmatched_rows (df_detail : DataFrame) (kr w : nat)
    (ls : list (list value)) :
  (forall l, l ∈ ls -> matches df_detail l = []) ->
  List.map (List.map (Pd.fill 0))
    (List.concat
       (List.map
          (fun l =>
             match matches df_detail l with
             | [] => [l ++ repeat VNaN w]
             | ms => List.map (fun r => l ++ Pd.drop_nth kr r) ms
             end)
          ls))
  = List.map (fun l => List.map (Pd.fill 0) l ++ repeat (VNum 0) w) ls.
Proof.
  induction ls as [|l ls IH]; intros H; [reflexivity|].
  cbn [List.map List.concat].
  rewrite (H l) by apply list_elem_of_here.
  rewrite List.map_app. cbn [List.map app].
  rewrite List.map_app, fill_repeat_nan. f_equal.
  apply IH. intros l' Hl'. apply H, list_elem_of_further, Hl'.
Qed.

(** C7, as amended. For a summary table of M rows joined to K detail
    records: when the summary identifiers are pairwise distinct, every
    detail record carries the identifier of a summary row and every
    summary row matches at least one detail record, the joined table has
    exactly K rows; when no summary row matches a detail record, it has
    exactly M rows, each a summary row followed by zeros in all the detail
    columns. *)
Theorem join_row_count (city school : string) (df_big : DataFrame)
    (list_df : list DataFrame) (df_detail joined : DataFrame) :
  detail_records city school list_df = Ok df_detail ->
  join_tables city school df_big list_df = Ok joined ->
  (distinct_keys (List.map summary_key (rows df_big)) ->
   (forall r, r ∈ rows df_detail ->
      exists l, l ∈ rows df_big
        /\ Pd.key_match (summary_key l) (detail_key df_detail r) = true) ->
   (forall l, l ∈ rows df_big -> matches df_detail l <> []) ->
   length (rows joined) = length (rows df_detail))
  /\ ((forall l, l ∈ rows df_big -> matches df_detail l = []) ->
      length (rows joined) = length (rows df_big)
      /\ rows joined
         = List.map
             (fun l => List.map (Pd.fill 0) l
                       ++ repeat (VNum 0) (length (columns df_detail) - 1))
             (rows df_big)).
Proof.
  intros Hd Hjoin.
  destruct (join_tables_ok _ _ _ _ _ Hjoin)
    as (df_detail' & kr & Hd' & Hkr & _ & Hrows).
  rewrite Hd in Hd'. injection Hd' as <-.
  split.
  - intros Hdistinct Hcover Hall.
    rewrite Hrows, length_map, length_concat, List.map_map.
    rewrite (map_ext_in _ (fun l => length (matches df_detail l))).
    + unfold matches. rewrite count_pairs.
      rewrite (list_sum_map_const _ _ 1); [lia|].
      intros r Hr. apply matched_once; [exact Hdistinct | apply Hcover, Hr].
    + intros l Hl. apply list_elem_of_In in Hl. specialize (Hall l Hl).
      destruct (matches df_detail l); [contradiction|].
      rewrite length_map. reflexivity.
  - intros Hnone.
    assert (E : rows joined
                = List.map
                    (fun l => List.map (Pd.fill 0) l
                              ++ repeat (VNum 0)
                                   (length (columns df_detail) - 1))
                    (rows df_big)).
    { rewrite Hrows. apply unmatched_rows, Hnone. }
    split; [rewrite E, length_map; reflexivity | exact E].
Qed.

Lemma join_row_count_witness :
  length
    (rows (Sample.get
             (join_tables "curitiba" "Escola A"
                (Sample.big [VStr "a"; VStr "b"])
                [Sample.detail (VStr "a") ["Ana"; "Bia"];
                 Sample.detail (VStr "b") ["Caio"]])))
  = 3%nat
  /\ length
       (rows (Sample.get
                (join_tables "curitiba" "Escola A"
                   (Sample.big [VStr "a"; VStr "b"])
                   [Sample.detail (VStr "a") []; Sample.detail (VStr "b") []])))
     = 2%nat.
Proof.
  split.
  - apply (proj1 (join_row_count "curitiba" "Escola A"
                    (Sample.big [VStr "a"; VStr "b"])
                    [Sample.detail (VStr "a") ["Ana"; "Bia"];
                     Sample.detail (VStr "b") ["Caio"]]
                    (Sample.get
                       (detail_records "curitiba" "Escola A"
                          [Sample.detail (VStr "a") ["Ana"; "Bia"];
                           Sample.detail (VStr "b") ["Caio"]]))
                    _ eq_refl eq_refl)).
    + intros [|[|i]] [|[|j]] a b Hi Hj Hm; vm_compute in Hi, Hj;
        try discriminate; try reflexivity;
        injection Hi as <-; injection Hj as <-; vm_compute in Hm;
        discriminate.
    + intros r Hr. apply list_elem_of_In in Hr. vm_compute in Hr.
      destruct Hr as [<-|[<-|[<-|[]]]];
        [exists [VStr "Arte"; VStr "M"; VNum 2; VNum 1; VNum 1; VNum 0;
                 VNaN; VStr "a"]
        |exists [VStr "Arte"; VStr "M"; VNum 2; VNum 1; VNum 1; VNum 0;
                 VNaN; VStr "a"]
        |exists [VStr "Arte"; VStr "M"; VNum 2; VNum 1; VNum 1; VNum 0;
                 VNaN; VStr "b"]];
        (split; [apply list_elem_of_In; vm_compute; tauto
                | vm_compute; reflexivity]).
    + intros l Hl. apply list_elem_of_In in Hl. vm_compute in Hl.
      destruct Hl as [<-|[<-|[]]]; vm_compute; discriminate.
  - apply (proj2 (join_row_count "curitiba" "Escola A"
                    (Sample.big [VStr "a"; VStr "b"])
                    [Sample.detail (VStr "a") []; Sample.detail (VStr "b") []]
                    (Sample.get
                       (detail_records "curitiba" "Escola A"
                          [Sample.detail (VStr "a") [];
                           Sample.detail (VStr "b") []]))
                    _ eq_refl eq_refl)).
    intros l Hl. vm_compute. reflexivity.
Defined.

(** C7, counterexample. Two summary rows share the identifier "a" and
    one detail record carries it: every identifier matches, K is 1, and
    the joined table has 2 rows. The same happens with two rows without
    identifier and one detail record fetched for the null identifier. *)
Lemma join_row_count_shared_identifier :
  length (rows (Sample.get
                  (detail_records "curitiba" "Escola A"
                     [Sample.detail (VStr "a") ["Ana"]]))) = 1%nat
  /\ List.map
       (fun l =>
          length
            (matches
               (Sample.get
                  (detail_records "curitiba" "Escola A"
                     [Sample.detail (VStr "a") ["Ana"]]))
               l))
       (rows (Sample.big [VStr "a"; VStr "a"]))
     = [1%nat; 1%nat]
  /\ (exists joined,
        join_tables "curitiba" "Escola A" (Sample.big [VStr "a"; VStr "a"])
          [Sample.detail (VStr "a") ["Ana"]] = Ok joined
        /\ length (rows joined) = 2%nat)
  /\ (exists joined,
        join_tables "curitiba" "Escola A" (Sample.big [VNone; VNone])
          [Sample.detail VNone ["Ana"]] = Ok joined
        /\ length (rows joined) = 2%nat).
Proof.
  split; [vm_compute; reflexivity|].
  split; [vm_compute; reflexivity|].
  split; eexists; split; vm_compute; reflexivity.
Qed.

Lemma fill_not_missing (v : value) : Pd.isna (Pd.fill 0 v) = false.
Proof. destruct v; reflexivity. Qed.

Lemma elem_of_add_label (name : string) (cols : list string) :
  name ∈ Pd.add_label name cols.
Proof.
  unfold Pd.add_label. case_bool_decide; [assumption|].
  apply elem_of_app. right. apply list_elem_of_here.
Qed.

Lemma add_label_keeps (name other : string) (cols : list string) :
  other ∈ cols -> other ∈ Pd.add_label name cols.
Proof.
  intros H. unfold Pd.add_label. case_bool_decide; [assumption|].
  apply elem_of_app. left. exact H.
Qed.

Lemma elem_of_drop_nth {A} (x y : A) (k : nat) (l : list A) :
  x ∈ l -> l !! k = Some y -> x <> y -> x ∈ Pd.drop_nth k l.
Proof.
  intros Hin Hk Hne. unfold Pd.drop_nth.
  rewrite <- (take_drop_middle l k y Hk) in Hin.
  rewrite elem_of_app, elem_of_cons in Hin. rewrite elem_of_app. tauto.
Qed.

Lemma length_drop_nth {A} (k : nat) (l : list A) (y : A) :
  l !! k = Some y -> length (Pd.drop_nth k l) = (length l - 1)%nat.
Proof.
  intros Hk. unfold Pd.drop_nth.
  rewrite <- (take_drop_middle l k y Hk) at 3.
  rewrite !length_app. simpl. lia.
Qed.

Lemma detail_records_names (city school : string) (list_df : list DataFrame)
    (df_detail : DataFrame) :
  detail_records city school list_df = Ok df_detail ->
  "municipio" ∈ columns df_detail /\ "escola" ∈ columns df_detail.
Proof.
  unfold detail_records.
  destruct (Pd.concat list_df) as [d|]; [|discriminate].
  destruct (Pd.dropna "Nome" d) as [d'|]; [|discriminate].
  intros [= <-]. simpl. split.
  - apply add_label_keeps, elem_of_add_label.
  - apply elem_of_add_label.
Qed.

(** C10, as amended. In the table a school's join returns, no cell of any
    column is missing: the fill with zero reaches every column. For a
    summary row that matches no detail record the joined row is the
    summary row, filled, followed by the number 0 in every detail column,
    and the columns "municipio" and "escola" are among these detail
    columns. *)
Theorem fillna_reaches_every_column (city school : string)
    (df_big : DataFrame) (list_df : list DataFrame) (joined : DataFrame) :
  join_tables city school df_big list_df = Ok joined ->
  (forall row v, row ∈ rows joined -> v ∈ row -> Pd.isna v = false)
  /\ exists df_detail detail_cols,
       detail_records city school list_df = Ok df_detail
       /\ columns joined
          = List.map (Pd.suffixed "_x" "ids" (columns df_detail))
              summary_columns ++ detail_cols
       /\ "municipio" ∈ detail_cols /\ "escola" ∈ detail_cols
       /\ forall l, l ∈ rows df_big -> matches df_detail l = [] ->
            (List.map (Pd.fill 0) l ++ repeat (VNum 0) (length detail_cols))
              ∈ rows joined.
Proof.
  intros Hjoin.
  destruct (join_tables_ok _ _ _ _ _ Hjoin)
    as (df_detail & kr & Hd & Hkr & Hcols & Hrows).
  split.
  - intros row v Hrow Hv. rewrite Hrows in Hrow.
    apply list_elem_of_In, in_map_iff in Hrow as (row0 & <- & _).
    apply list_elem_of_In, in_map_iff in Hv as (v0 & <- & _).
    apply fill_not_missing.
  - apply col_index_Some in Hkr as [Hkr _].
    destruct (detail_records_names _ _ _ _ Hd) as [Hmun Hesc].
    exists df_detail, (List.map (Pd.suffixed "_y" "ids" summary_columns)
                         (Pd.drop_nth kr (columns df_detail))).
    split; [exact Hd|]. split; [exact Hcols|].
    split; [|split].
    + apply list_elem_of_In.
      change "municipio"
        with (Pd.suffixed "_y" "ids" summary_columns "municipio") at 1.
      apply in_map, list_elem_of_In.
      eapply elem_of_drop_nth; [exact Hmun | exact Hkr | discriminate].
    + apply list_elem_of_In.
      change "escola"
        with (Pd.suffixed "_y" "ids" summary_columns "escola") at 1.
      apply in_map, list_elem_of_In.
      eapply elem_of_drop_nth; [exact Hesc | exact Hkr | discriminate].
    + intros l Hl Hnone. rewrite Hrows, length_map.
      rewrite (length_drop_nth _ _ _ Hkr).
      apply list_elem_of_In, in_map_iff.
      exists (l ++ repeat VNaN (length (columns df_detail) - 1)).
      split; [rewrite List.map_app, fill_repeat_nan; reflexivity|].
      apply in_concat. eexists. split.
      * apply in_map_iff. exists l. split; [reflexivity|].
        apply list_elem_of_In, Hl.
      * rewrite Hnone. left. reflexivity.
Qed.

Lemma fillna_reaches_every_column_witness :
  (forall row v,
      row ∈ rows (Sample.get
                    (fst (extract_school_data (Sample.portal "none")
                            "curitiba" "10" "Escola A" "1" "w1" []))) ->
      v ∈ row -> Pd.isna v = false)
  /\ ([VStr "Fisica"; VStr "M"; VNum 2; VNum 1; VNum 1; VNum 0; VNum 0; VNum 0;
       VNum 0; VNum 0; VNum 0; VNum 0]
      ∈ rows (Sample.get
                (fst (extract_school_data (Sample.portal "none")
                        "curitiba" "10" "Escola A" "1" "w1" [])))).
Proof.
  destruct (fillna_reaches_every_column "curitiba" "Escola A"
              (Sample.get (summary_table Sample.supply_page))
              [Pd.set_scalar "ids" (VStr "f:0")
                 (mkFrame [ "Nome"; "Cargo" ]
                    [ [ VStr "Ana"; VStr "QPM" ]; [ VStr "Bia"; VStr "PSS" ] ]);
               Pd.set_scalar "ids" VNone
                 (mkFrame [ "Nome"; "Cargo" ] [ [ VNaN; VNaN ] ]);
               Pd.set_scalar "ids" (VStr "f:2")
                 (mkFrame [ "Nome"; "Cargo" ] [ [ VStr "Caio"; VStr "QPM" ] ])]
              (Sample.get
                 (fst (extract_school_data (Sample.portal "none")
                         "curitiba" "10" "Escola A" "1" "w1" []))))
    as [Hfull _].
  - vm_compute. reflexivity.
  - split; [exact Hfull|]. apply list_elem_of_In. vm_compute. tauto.
Defined.

(** C10, counterexample. The export is the concatenation of the schools'
    tables, and nothing is filled after it. At a portal whose detail
    tables have the column "Vinculo" for one school only, the run writes
    an export of eleven rows in which the rows of the two other schools
    hold a missing value in that column. *)
Lemma export_holds_missing_values :
  exists df st,
    main Probes.uneven Sample.catalogue [] = (Ok df, st)
    /\ Pd.column "escola" df
       = [VStr "Escola A"; VStr "Escola A"; VNum 0; VStr "Escola A";
          VStr "Escola B"; VNum 0; VNum 0;
          VStr "Escola C"; VStr "Escola C"; VNum 0; VStr "Escola C"]
    /\ Pd.column "Vinculo" df
       = [VNaN; VNaN; VNaN; VNaN; VStr "Efetivo"; VNum 0; VNum 0;
          VNaN; VNaN; VNaN; VNaN]
    /\ exists row v, row ∈ rows df /\ v ∈ row /\ Pd.isna v = true.
Proof.
  eexists _, _. split; [vm_compute; reflexivity|].
  split; [vm_compute; reflexivity|]. split; [vm_compute; reflexivity|].
  eexists _, VNaN. split; [apply list_elem_of_In; left; reflexivity|].
  split; [|reflexivity].
  apply list_elem_of_In. vm_compute. tauto.
Qed.

(** C8: the code at the failing input. The portal gives no detail line for
    the identifier "f:2" and none with a name for the row without
    identifier: in the table returned for the school, the columns
    "municipio" and "escola" hold the names on the matched rows and the
    number 0 on the second and third summary rows. *)
Theorem unmatched_rows_lose_names :
  exists df st,
    extract_school_data Sample.vacant_portal "curitiba" "10" "Escola A" "1"
      "w1" [] = (Ok df, st)
    /\ Pd.column "ids" df = [VStr "f:0"; VStr "f:0"; VNum 0; VStr "f:2"]
    /\ Pd.column "municipio" df
       = [VStr "curitiba"; VStr "curitiba"; VNum 0; VNum 0]
    /\ Pd.column "escola" df
       = [VStr "Escola A"; VStr "Escola A"; VNum 0; VNum 0].
Proof.
  eexists _, _. split; [vm_compute; reflexivity|].
  repeat split; vm_compute; reflexivity.
Qed.

Lemma viewstate_token_threading_witness :
  exists sent,
    snd (extract_school_data (Sample.portal "none") "curitiba" "10"
           "Escola A" "1" "w1" []) = [] ++ sent
    /\ threaded (Sample.portal "none") [] None sent
    /\ (forall df,
          fst (extract_school_data (Sample.portal "none") "curitiba" "10"
                 "Escola A" "1" "w1" []) = Ok df ->
          exists v1 v2 v3 ids,
            captured (Sample.portal "none" [] (GetSchool "w1" "10" "1"))
            = Some v1
            /\ captured
                 (Sample.portal "none"
                    ([] ++ [GetSchool "w1" "10" "1";
                            PostProfessionals "w1" v1 "1"])
                    (GetProfessionals "w1"))
               = Some v2
            /\ captured
                 (Sample.portal "none"
                    ([] ++ [GetSchool "w1" "10" "1";
                            PostProfessionals "w1" v1 "1";
                            GetProfessionals "w1"; PostSupply "w1" v2])
                    (GetSupply "w1"))
               = Some v3
            /\ sent = [GetSchool "w1" "10" "1"; PostProfessionals "w1" v1 "1";
                       GetProfessionals "w1"; PostSupply "w1" v2;
                       GetSupply "w1"]
                      ++ List.map (PostDetail "w1" v3) ids).
Proof.
  apply (viewstate_token_threading (Sample.portal "none") "curitiba" "10"
           "Escola A" "1" "w1" []).
Defined.

(** * Further properties *)

(** ** The normaliser *)

Lemma length_append (s1 s2 : string) :
  String.length (s1 +:+ s2) = (String.length s1 + String.length s2)%nat.
Proof.
  induction s1 as [|c s1 IH]; [reflexivity|].
  change (S (String.length (s1 +:+ s2))
          = S (String.length s1 + String.length s2)).
  rewrite IH. reflexivity.
Qed.

Lemma key_of_char_short (c : ascii) : (String.length (key_of_char c) <= 1)%nat.
Proof.
  destruct c as [[] [] [] [] [] [] [] []]; vm_compute; lia.
Qed.

(** X1. The key of a concatenation is the concatenation of the keys, and a
    key is never longer than the name it comes from. *)
Theorem normalize_string_append :
  (forall s1 s2,
      normalize_string (s1 +:+ s2)
      = normalize_string s1 +:+ normalize_string s2)
  /\ (forall s, (String.length (normalize_string s) <= String.length s)%nat).
Proof.
  split.
  - intros s1 s2. rewrite !normalize_key_of. apply key_of_append.
  - intros s. rewrite normalize_key_of.
    induction s as [|c t IH]; [reflexivity|].
    change (key_of (String c t)) with (key_of_char c +:+ key_of t).
    rewrite length_append. pose proof (key_of_char_short c).
    change (String.length (String c t)) with (S (String.length t)). lia.
Qed.

Lemma filter_short (p : ascii -> bool) (s : string) :
  (String.length (Str.filter p s) <= String.length s)%nat.
Proof.
  induction s as [|c t IH]; [reflexivity|].
  simpl. destruct (p c); simpl; lia.
Qed.

Lemma key_of_char_plain (c : ascii) :
  Str.is_ascii_lower c || Str.is_digit c = true ->
  key_of_char c = String c EmptyString.
Proof.
  destruct c as [[] [] [] [] [] [] [] []]; intros H;
    first [reflexivity | discriminate H].
Qed.

(** X2. A string of lowercase ASCII letters and digits is its own key. *)
Theorem normalize_string_plain (s : string) :
  Str.filter (fun c => Str.is_ascii_lower c || Str.is_digit c) s = s ->
  normalize_string s = s.
Proof.
  rewrite normalize_key_of.
  induction s as [|c t IH]; [reflexivity|].
  change (Str.filter ?p (String c t))
    with (if p c then String c (Str.filter p t) else Str.filter p t).
  cbv beta.
  destruct (Str.is_ascii_lower c || Str.is_digit c) eqn:E.
  - intros [= H].
    change (key_of (String c t)) with (key_of_char c +:+ key_of t).
    rewrite key_of_char_plain, IH by assumption. reflexivity.
  - intros H.
    pose proof (filter_short
                  (fun c => Str.is_ascii_lower c || Str.is_digit c) t) as Hlen.
    rewrite H in Hlen. simpl in Hlen. lia.
Qed.

Lemma normalize_string_plain_witness : normalize_string "saopaulo" = "saopaulo".
Proof. apply normalize_string_plain. reflexivity. Defined.

(** ** The catalogue *)

Lemma zip_maps {A B C} (f : A -> B) (g : A -> C) (l : list A) :
  zip (List.map f l) (List.map g l) = List.map (fun x => (f x, g x)) l.
Proof.
  induction l as [|x l IH]; [reflexivity|]. simpl. rewrite IH. reflexivity.
Qed.

Lemma elem_of_schools_of (file : list CatalogRow) (city school : string) :
  school ∈ schools_of (fst (extract_cities_schools file)) city
  <-> exists r, r ∈ file
        /\ normalize_string (mun2 r) = city
        /\ normalize_string (estabelecimento_scrapping r) = school.
Proof.
  unfold schools_of, extract_cities_schools. simpl.
  rewrite elem_of_unique, zip_maps, list_elem_of_In, in_map_iff.
  split.
  - intros ([m e] & <- & Hin). apply filter_In in Hin as [Hin Hcity].
    apply in_map_iff in Hin as (r & [= <- <-] & Hr).
    apply bool_decide_eq_true in Hcity. simpl in Hcity.
    exists r. rewrite list_elem_of_In. auto.
  - intros (r & Hr & Hm & He).
    exists (normalize_string (mun2 r),
            normalize_string (estabelecimento_scrapping r)).
    split; [exact He|]. apply filter_In. split.
    + apply in_map_iff. exists r. rewrite <- list_elem_of_In. auto.
    + apply bool_decide_eq_true. exact Hm.
Qed.

(** X3. The list of municipalities holds each normalised municipality of
    the file once and nothing else; every municipality of the list has at
    least one school to look for, and its school list holds, each once,
    the normalised schools of the rows of that municipality. *)
Theorem extract_cities_schools_lists (file : list CatalogRow) :
  NoDup (snd (extract_cities_schools file))
  /\ (forall city,
        city ∈ snd (extract_cities_schools file)
        <-> exists r, r ∈ file /\ normalize_string (mun2 r) = city)
  /\ (forall city,
        city ∈ snd (extract_cities_schools file) ->
        schools_of (fst (extract_cities_schools file)) city <> [])
  /\ (forall city,
        NoDup (schools_of (fst (extract_cities_schools file)) city)
        /\ forall school,
             school ∈ schools_of (fst (extract_cities_schools file)) city
             <-> exists r, r ∈ file
                   /\ normalize_string (mun2 r) = city
                   /\ normalize_string (estabelecimento_scrapping r)
                      = school).
Proof.
  assert (Hcity : forall city,
             city ∈ snd (extract_cities_schools file)
             <-> exists r, r ∈ file /\ normalize_string (mun2 r) = city).
  { intros city. unfold extract_cities_schools. simpl.
    rewrite elem_of_unique, list_elem_of_In, in_map_iff.
    split; intros (r & H1 & H2); exists r;
      rewrite ?list_elem_of_In in *; auto. }
  split; [apply NoDup_unique|]. split; [exact Hcity|]. split.
  - intros city Hin. apply Hcity in Hin as (r & Hr & Hm).
    assert (Hs : normalize_string (estabelecimento_scrapping r)
                 ∈ schools_of (fst (extract_cities_schools file)) city)
      by (apply elem_of_schools_of; eauto).
    intros E. rewrite E in Hs. inversion Hs.
  - intros city. split; [apply NoDup_unique|].
    intros school. apply elem_of_schools_of.
Qed.

Lemma extract_cities_schools_lists_witness :
  schools_of (fst (extract_cities_schools Sample.catalogue)) "curitiba" <> [].
Proof.
  apply (proj1 (proj2 (proj2 (extract_cities_schools_lists Sample.catalogue)))).
  apply list_elem_of_In. vm_compute. tauto.
Defined.

(** ** The first request *)

Lemma for_each_pure {A B} (body : B -> A -> M B) (l : list A) (acc : B)
    (st : Session) :
  (forall acc x st, snd (body acc x st) = st) ->
  snd (for_each body l acc st) = st.
Proof.
  intros Hpure. revert acc st. induction l as [|x l IH]; intros acc st;
    [reflexivity|].
  simpl. unfold bind. specialize (Hpure acc x st).
  destruct (body acc x st) as [[acc'|e] st']; simpl in Hpure; subst;
    [apply IH | reflexivity].
Qed.

Lemma city_code_step_pure (d : gmap string string) (o : OptionTag)
    (st : Session) :
  snd (city_code_step d o st) = st.
Proof.
  unfold city_code_step, bind, value_of, from_option, ret, raise.
  destruct (Str.contains "value" (opt_markup o)); [|reflexivity].
  destruct (opt_value o); reflexivity.
Qed.

Lemma initial_request_sent (portal : Portal) (url : string) (st : Session) :
  snd (initial_request portal url st) = st ++ [GetInitial url].
Proof.
  unfold initial_request, bind at 1, send at 1.
  destruct (status_code _ =? 200)%Z; [|reflexivity].
  unfold bind at 1.
  destruct (Str.contains "windowId" _); [|reflexivity].
  unfold bind at 1, from_option at 1.
  destruct (Str.split "windowId=" _ !! 1%nat) as [x|]; [|reflexivity].
  unfold ret at 1, from_option at 1.
  destruct (head (Str.split Str.dquote x)) as [w|]; [|reflexivity].
  unfold ret at 1, bind at 1, from_option at 1.
  destruct (municipio_select _) as [opts|]; [|reflexivity].
  unfold ret at 1, bind at 1.
  pose proof (for_each_pure city_code_step opts ∅ (st ++ [GetInitial url])
                city_code_step_pure) as Hloop.
  destruct (for_each city_code_step opts ∅ (st ++ [GetInitial url]))
    as [[d|e] st']; simpl in Hloop; subst st'; [|reflexivity].
  unfold bind, viewstate_of, ret, raise.
  destruct (viewstate_input _) as [[v|]|]; reflexivity.
Qed.

(** X4. Whatever the first page holds, [initial_request] sends one request
    and no more: the fetch of the given address. *)
Theorem initial_request_one_request (portal : Portal) (url : string)
    (st : Session) :
  snd (initial_request portal url st) = st ++ [GetInitial url].
Proof. apply initial_request_sent. Qed.

(** X5. A first page with a status other than 200 raises the exception
    "Error in initial request", and a first page of status 200 whose text
    does not mention windowId raises "WindowId not found". *)
Theorem initial_request_refused (portal : Portal) (url : string)
    (st : Session) :
  ((status_code (portal st (GetInitial url)) <> 200)%Z ->
   fst (initial_request portal url st)
   = Err (Exception "Error in initial request"))
  /\ ((status_code (portal st (GetInitial url)) = 200)%Z ->
      Str.contains "windowId" (text (portal st (GetInitial url))) = false ->
      fst (initial_request portal url st)
      = Err (Exception "WindowId not found")).
Proof.
  split.
  - intros H. apply Z.eqb_neq in H.
    unfold initial_request, bind at 1, send at 1. rewrite H. reflexivity.
  - intros H Hw. apply Z.eqb_eq in H.
    unfold initial_request, bind at 1, send at 1. rewrite H.
    unfold bind at 1. rewrite Hw. reflexivity.
Qed.

Lemma initial_request_refused_witness :
  fst (initial_request Probes.down initial_url [])
  = Err (Exception "Error in initial request")
  /\ fst (initial_request Probes.no_window initial_url [])
     = Err (Exception "WindowId not found").
Proof.
  split.
  - apply (proj1 (initial_request_refused Probes.down initial_url [])).
    vm_compute. discriminate.
  - apply (proj2 (initial_request_refused Probes.no_window initial_url []));
      vm_compute; reflexivity.
Defined.

(** The loop of lines 85-87 inserts the entries in order. *)
Lemma city_codes_loop (opts : list OptionTag) (d d' : gmap string string)
    (st st' : Session) :
  for_each city_code_step opts d st = (Ok d', st') ->
  d' = foldl (fun m p => <[p.1 := p.2]> m) d (city_entries opts).
Proof.
  revert d st. induction opts as [|o opts IH]; intros d st.
  - simpl. unfold ret. intros [= <- _]. reflexivity.
  - simpl for_each. unfold bind at 1, city_code_step at 1.
    unfold city_entries. simpl omap. fold (city_entries opts).
    destruct (Str.contains "value" (opt_markup o)).
    + unfold bind, value_of, from_option.
      destruct (opt_value o) as [v|]; [|unfold raise; intros [=]].
      unfold ret at 1 2. simpl. apply IH.
    + unfold ret at 1. simpl. apply IH.
Qed.

Lemma lookup_inserted (entries : list (string * string))
    (d : gmap string string) (k : string) :
  k ∉ List.map fst entries ->
  foldl (fun m p => <[p.1 := p.2]> m) d entries !! k = d !! k.
Proof.
  revert d. induction entries as [|[k' v'] entries IH]; intros d Hk;
    [reflexivity|].
  simpl. rewrite IH.
  - apply lookup_insert_ne. intros ->. apply Hk. simpl. apply list_elem_of_here.
  - intros H. apply Hk. simpl. apply list_elem_of_further, H.
Qed.

Lemma lookup_inserted_Some (entries : list (string * string))
    (d : gmap string string) (k v : string) :
  foldl (fun m p => <[p.1 := p.2]> m) d entries !! k = Some v ->
  (k, v) ∈ entries \/ d !! k = Some v.
Proof.
  revert d. induction entries as [|[k' v'] entries IH]; intros d H;
    [right; exact H|].
  simpl in H. apply IH in H as [H|H].
  - left. apply list_elem_of_further, H.
  - destruct (decide (k' = k)) as [->|Hne].
    + rewrite lookup_insert_eq in H. injection H as ->.
      left. apply list_elem_of_here.
    + rewrite lookup_insert_ne in H by exact Hne. right. exact H.
Qed.

(** X6. When [initial_request] succeeds, the city code map holds exactly
    what the options of the municipality list gave: a key of the map is
    the normalised label of an option carrying that code, the view-state
    token is the value of the page's view-state input, and of several
    options with the same normalised label the last one gives the code. *)
Theorem initial_request_city_codes (portal : Portal) (url : string)
    (st st' : Session) (windowid viewstate : string)
    (dict : gmap string string) :
  initial_request portal url st = (Ok (windowid, viewstate, dict), st') ->
  exists opts,
    municipio_select (portal st (GetInitial url)) = Some opts
    /\ viewstate_input (portal st (GetInitial url)) = Some (Some viewstate)
    /\ (forall k v, dict !! k = Some v -> (k, v) ∈ city_entries opts)
    /\ (forall k v before after,
          city_entries opts = before ++ (k, v) :: after ->
          k ∉ List.map fst after -> dict !! k = Some v).
Proof.
  intros H. unfold initial_request in H.
  apply bind_ok in H as (r & s1 & H1 & H). apply send_ok in H1 as [-> ->].
  destruct (status_code _ =? 200)%Z; [|discriminate H].
  apply bind_ok in H as (w & s2 & _ & H).
  apply bind_ok in H as (opts & s3 & Hsel & H).
  apply bind_ok in H as (d & s4 & Hloop & H).
  apply bind_ok in H as (v & s5 & Hv & H).
  injection H as -> -> -> _.
  apply viewstate_of_ok in Hv as [Hv _].
  apply city_codes_loop in Hloop.
  unfold from_option in Hsel.
  destruct (municipio_select _) as [opts'|] eqn:E; [|discriminate Hsel].
  injection Hsel as -> _.
  exists opts. split; [reflexivity|]. split; [exact Hv|]. split.
  - intros k v' Hk. rewrite Hloop in Hk.
    apply lookup_inserted_Some in Hk as [Hk|Hk]; [exact Hk|].
    rewrite lookup_empty in Hk. discriminate Hk.
  - intros k v' before after Hsplit Hlast.
    rewrite Hloop, Hsplit, foldl_app. simpl.
    rewrite lookup_inserted by exact Hlast. apply lookup_insert_eq.
Qed.

Lemma initial_request_city_codes_witness :
  exists opts,
    municipio_select (Sample.portal "none" [] (GetInitial initial_url))
    = Some opts
    /\ viewstate_input (Sample.portal "none" [] (GetInitial initial_url))
       = Some (Some "v0")
    /\ (forall k v,
          (<["londrina" := "20"]> (<["curitiba" := "10"]> ∅)
             : gmap string string) !! k = Some v ->
          (k, v) ∈ city_entries opts)
    /\ (forall k v before after,
          city_entries opts = before ++ (k, v) :: after ->
          k ∉ List.map fst after ->
          (<["londrina" := "20"]> (<["curitiba" := "10"]> ∅)
             : gmap string string) !! k = Some v).
Proof.
  apply (initial_request_city_codes (Sample.portal "none") initial_url []
           [GetInitial initial_url] "w1" "v0"
           (<["londrina" := "20"]> (<["curitiba" := "10"]> ∅))).
  vm_compute. reflexivity.
Defined.

(** ** What a run sends *)

Lemma sends_ret {A} (P : Request -> Prop) (a : A) : sends P (ret a).
Proof. intros st. exists []. rewrite app_nil_r. auto. Qed.

Lemma sends_raise {A} (P : Request -> Prop) (e : exn) :
  sends P (raise e : M A).
Proof. intros st. exists []. rewrite app_nil_r. auto. Qed.

Lemma sends_lift {A} (P : Request -> Prop) (r : result A) : sends P (lift r).
Proof. intros st. exists []. rewrite app_nil_r. auto. Qed.

Lemma sends_from_option {A} (P : Request -> Prop) (e : exn) (o : option A) :
  sends P (from_option e o).
Proof. destruct o; [apply sends_ret | apply sends_raise]. Qed.

Lemma sends_viewstate_of (P : Request -> Prop) (p : Page) :
  sends P (viewstate_of p).
Proof.
  unfold viewstate_of.
  destruct (viewstate_input p) as [[v|]|];
    [apply sends_ret | apply sends_raise | apply sends_raise].
Qed.

Lemma sends_send (portal : Portal) (P : Request -> Prop) (q : Request) :
  P q -> sends P (send portal q).
Proof. intros H st. exists [q]. auto. Qed.

Lemma sends_bind {A B} (P : Request -> Prop) (m : M A) (k : A -> M B) :
  sends P m -> (forall a, sends P (k a)) -> sends P (bind m k).
Proof.
  intros Hm Hk st. destruct (Hm st) as (sent & Hst & Hsent).
  unfold bind. destruct (m st) as [[a|e] st1]; simpl in Hst; subst st1.
  - destruct (Hk a (st ++ sent)) as (sent' & Hst' & Hsent').
    exists (sent ++ sent'). rewrite Hst', app_assoc. split; [reflexivity|].
    apply Forall_app. auto.
  - exists sent. auto.
Qed.

Lemma sends_for_each {A B} (P : Request -> Prop) (body : B -> A -> M B)
    (l : list A) (acc : B) :
  (forall acc x, sends P (body acc x)) -> sends P (for_each body l acc).
Proof.
  intros Hbody. revert acc. induction l as [|x l IH]; intros acc.
  - apply sends_ret.
  - simpl. apply sends_bind; [apply Hbody | intros acc'; apply IH].
Qed.

Lemma sends_extract_school_data (portal : Portal)
    (city city_code school school_code windowid viewstate : string) :
  sends (carries windowid viewstate)
    (extract_school_data portal city city_code school school_code windowid).
Proof.
  unfold extract_school_data.
  repeat first
    [ apply sends_bind; [|intros ?]
    | apply sends_send; split; [reflexivity | exact I]
    | apply sends_viewstate_of
    | apply sends_lift
    | apply sends_for_each; intros ? ?; unfold detail_step
    | apply sends_from_option
    | apply sends_ret ].
Qed.

(** X7. Every request [extract_city_data] sends carries the window
    identifier it was given, and every request that selects a municipality
    carries the view-state token it was given: the token of the first page
    is never refreshed for these requests, however many schools were
    visited in between. *)
Theorem extract_city_data_requests (portal : Portal)
    (windowid viewstate : string) (dict : gmap string string)
    (df_excel : Excel) (list_cities : list string) :
  sends (carries windowid viewstate)
    (extract_city_data portal windowid viewstate dict df_excel list_cities).
Proof.
  unfold extract_city_data. apply sends_for_each. intros acc city.
  unfold city_step.
  apply sends_bind; [apply sends_from_option | intros city_code].
  apply sends_bind; [apply sends_send; split; reflexivity | intros r].
  destruct (first_select r) as [opts|]; [|apply sends_ret].
  case_bool_decide; [apply sends_ret|].
  apply sends_for_each. intros acc' o. unfold school_step.
  destruct (Str.contains "value" (opt_markup o)); [|apply sends_ret].
  case_bool_decide; [|apply sends_ret].
  apply sends_bind; [apply sends_from_option | intros school_code].
  apply sends_bind; [apply sends_extract_school_data | intros df].
  apply sends_ret.
Qed.

(** ** Municipalities that give nothing *)

Lemma for_each_unselected (portal : Portal)
    (city city_code windowid : string) (school_list : list string)
    (opts : list OptionTag) (acc : list DataFrame) (st : Session) :
  Forall (fun o => selected school_list o = false) opts ->
  for_each (school_step portal city city_code windowid school_list) opts acc st
  = (Ok acc, st).
Proof.
  induction 1 as [|o opts Ho _ IH]; [reflexivity|].
  simpl. unfold bind, school_step at 1. unfold selected in Ho.
  destruct (Str.contains "value" (opt_markup o)); simpl in Ho.
  - rewrite Ho. exact IH.
  - exact IH.
Qed.

(** X8. A municipality whose answer holds no school list, or a school list
    none of whose options is asked for (an option counts when its markup
    mentions a value and its normalised label is in the catalogue), adds
    no table and costs exactly one request. *)
Theorem city_step_nothing_selected (portal : Portal)
    (windowid viewstate city city_code : string)
    (dict : gmap string string) (df_excel : Excel)
    (acc : list DataFrame) (st : Session) :
  dict !! city = Some city_code ->
  (first_select (portal st (PostCity windowid viewstate city_code)) = None
   \/ exists opts,
        first_select (portal st (PostCity windowid viewstate city_code))
        = Some opts
        /\ Forall (fun o => selected (schools_of df_excel city) o = false)
             opts) ->
  city_step portal windowid viewstate dict df_excel acc city st
  = (Ok acc, st ++ [PostCity windowid viewstate city_code]).
Proof.
  intros Hcode Hsel. unfold city_step, bind at 1. rewrite Hcode.
  simpl from_option. unfold ret at 1, bind at 1, send at 1.
  destruct Hsel as [->|(opts & -> & Hnone)]; [reflexivity|].
  case_bool_decide; [reflexivity|].
  apply for_each_unselected, Hnone.
Qed.

Lemma city_step_nothing_selected_witness :
  city_step (Sample.portal "none") "w1" "v0"
    (<["londrina" := "20"]> (<["curitiba" := "10"]> ∅))
    (fst (extract_cities_schools [mkRow "Escola Z" "Londrina"]))
    [] "londrina" []
  = (Ok [], [] ++ [PostCity "w1" "v0" "20"]).
Proof.
  apply (city_step_nothing_selected (Sample.portal "none") "w1" "v0"
           "londrina" "20").
  - vm_compute. reflexivity.
  - right. eexists. split; [vm_compute; reflexivity|].
    repeat constructor.
Defined.

(** ** How the extraction of a school ends *)

(** Once the three pages of the navigation show their tokens, the
    extraction is decided by the summary table, the detail loop and the
    join. *)
Lemma extract_school_data_run (portal : Portal)
    (city city_code school school_code windowid : string) (st : Session)
    (v1 v2 v3 : string) :
  reaches portal st windowid city_code school_code v1 v2 v3 ->
  extract_school_data portal city city_code school school_code windowid st
  = match summary_table
            (supply_response portal st windowid city_code school_code v1 v2)
    with
    | Err e =>
        (Err e,
         st ++ navigation windowid city_code school_code v1 v2
            ++ [GetSupply windowid])
    | Ok df_big =>
        match for_each (detail_step portal windowid v3)
                (unique (Pd.column "ids" df_big)) []
                (st ++ navigation windowid city_code school_code v1 v2
                    ++ [GetSupply windowid])
        with
        | (Ok list_df, st') => (join_tables city school df_big list_df, st')
        | (Err e, st') => (Err e, st')
        end
    end.
Proof.
  intros (E1 & E2 & E3). unfold supply_response, navigation in *.
  unfold extract_school_data.
  unfold bind at 1, send at 1. unfold bind at 1, viewstate_of at 1.
  rewrite E1. unfold ret at 1.
  unfold bind at 1, send at 1. unfold bind at 1, send at 1.
  rewrite <- !app_assoc. simpl app.
  unfold bind at 1, viewstate_of at 1. rewrite E2. unfold ret at 1.
  unfold bind at 1, send at 1. unfold bind at 1, send at 1.
  rewrite <- !app_assoc. simpl app.
  unfold bind at 1, viewstate_of at 1. rewrite E3. unfold ret at 1.
  unfold bind at 1, lift at 1.
  destruct (summary_table _) as [df_big|e]; [|reflexivity].
  unfold bind. destruct (for_each _ _ _ _) as [[list_df|e] st'];
    reflexivity.
Qed.

(** X9. When the supply page holds fewer than two grid tables, the
    extraction raises [IndexError] right after the five navigation
    requests: no detail request is sent. *)
Theorem extract_school_data_no_grid (portal : Portal)
    (city city_code school school_code windowid : string) (st : Session)
    (v1 v2 v3 : string) :
  reaches portal st windowid city_code school_code v1 v2 v3 ->
  (length (grids (supply_response portal st windowid city_code school_code
                    v1 v2)) < 2)%nat ->
  extract_school_data portal city city_code school school_code windowid st
  = (Err IndexError,
     st ++ navigation windowid city_code school_code v1 v2
        ++ [GetSupply windowid]).
Proof.
  intros Hreach Hlen.
  rewrite (extract_school_data_run _ _ _ _ _ _ _ _ _ _ Hreach).
  unfold summary_table. rewrite lookup_ge_None_2 by lia. reflexivity.
Qed.

Lemma extract_school_data_no_grid_witness :
  extract_school_data (Probes.with_supply Probes.one_grid) "curitiba" "10"
    "Escola A" "1" "w1" []
  = (Err IndexError, [] ++ navigation "w1" "10" "1" "v1" "v2"
                        ++ [GetSupply "w1"]).
Proof.
  apply (extract_school_data_no_grid (Probes.with_supply Probes.one_grid)
           "curitiba" "10" "Escola A" "1" "w1" [] "v1" "v2" "v3").
  - repeat split.
  - vm_compute. lia.
Defined.

(** X10. When the summary table has no row there is no identifier to ask
    for: no detail request is sent and the extraction raises
    [ValueError], since there is no detail table to concatenate. *)
Theorem extract_school_data_empty_summary (portal : Portal)
    (city city_code school school_code windowid : string) (st : Session)
    (v1 v2 v3 : string) (df_big : DataFrame) :
  reaches portal st windowid city_code school_code v1 v2 v3 ->
  summary_table
    (supply_response portal st windowid city_code school_code v1 v2)
  = Ok df_big ->
  rows df_big = [] ->
  extract_school_data portal city city_code school school_code windowid st
  = (Err ValueError,
     st ++ navigation windowid city_code school_code v1 v2
        ++ [GetSupply windowid]).
Proof.
  intros Hreach Hsum Hrows.
  rewrite (extract_school_data_run _ _ _ _ _ _ _ _ _ _ Hreach), Hsum.
  unfold Pd.column. rewrite Hrows. reflexivity.
Qed.

Lemma extract_school_data_empty_summary_witness :
  extract_school_data (Probes.with_supply Probes.empty_grid) "curitiba" "10"
    "Escola A" "1" "w1" []
  = (Err ValueError, [] ++ navigation "w1" "10" "1" "v1" "v2"
                        ++ [GetSupply "w1"]).
Proof.
  apply (extract_school_data_empty_summary
           (Probes.with_supply Probes.empty_grid)
           "curitiba" "10" "Escola A" "1" "w1" [] "v1" "v2" "v3"
           (Sample.get (summary_table Probes.empty_grid))).
  - repeat split.
  - vm_compute. reflexivity.
  - vm_compute. reflexivity.
Defined.

(** X11. When the answer to the detail request of an identifier holds no
    table, the extraction raises [ValueError] at that request: the
    identifiers after it are not asked for. *)
Theorem extract_school_data_detail_without_table (portal : Portal)
    (city city_code school school_code windowid : string) (st st' : Session)
    (v1 v2 v3 : string) (df_big : DataFrame)
    (before after : list value) (id : value) (list_df : list DataFrame) :
  reaches portal st windowid city_code school_code v1 v2 v3 ->
  summary_table
    (supply_response portal st windowid city_code school_code v1 v2)
  = Ok df_big ->
  unique (Pd.column "ids" df_big) = before ++ id :: after ->
  for_each (detail_step portal windowid v3) before []
    (st ++ navigation windowid city_code school_code v1 v2
        ++ [GetSupply windowid])
  = (Ok list_df, st') ->
  first_table (portal st' (PostDetail windowid v3 id)) = None ->
  extract_school_data portal city city_code school school_code windowid st
  = (Err ValueError,
     st ++ navigation windowid city_code school_code v1 v2
        ++ [GetSupply windowid]
        ++ List.map (PostDetail windowid v3) (before ++ [id])).
Proof.
  intros Hreach Hsum Hids Hbefore Hnone.
  rewrite (extract_school_data_run _ _ _ _ _ _ _ _ _ _ Hreach), Hsum, Hids.
  rewrite for_each_app, Hbefore.
  change (for_each ?f (id :: after) list_df st')
    with (bind (f list_df id) (fun acc' => for_each f after acc') st').
  unfold bind at 1, detail_step at 1.
  unfold bind at 1, send at 1. unfold bind at 1.
  rewrite Hnone. simpl from_option. unfold raise.
  apply detail_loop_ok in Hbefore as ->.
  rewrite List.map_app, <- !app_assoc. reflexivity.
Qed.

Lemma extract_school_data_detail_without_table_witness :
  extract_school_data Probes.no_detail "curitiba" "10" "Escola A" "1" "w1" []
  = (Err ValueError,
     [] ++ navigation "w1" "10" "1" "v1" "v2" ++ [GetSupply "w1"]
        ++ List.map (PostDetail "w1" "v3") ([VStr "f:0"] ++ [VNone])).
Proof.
  apply (extract_school_data_detail_without_table Probes.no_detail
           "curitiba" "10" "Escola A" "1" "w1" []
           (snd (for_each (detail_step Probes.no_detail "w1" "v3")
                   [VStr "f:0"] []
                   ([] ++ navigation "w1" "10" "1" "v1" "v2"
                       ++ [GetSupply "w1"])))
           "v1" "v2" "v3"
           (Sample.get (summary_table Sample.supply_page))
           [VStr "f:0"] [VStr "f:2"] VNone
           [Pd.set_scalar "ids" (VStr "f:0")
              (mkFrame [ "Nome"; "Cargo" ]
                 [ [ VStr "Ana"; VStr "QPM" ]; [ VStr "Bia"; VStr "PSS" ] ])]).
  - repeat split.
  - vm_compute. reflexivity.
  - vm_compute. reflexivity.
  - vm_compute. reflexivity.
  - vm_compute. reflexivity.
Defined.

(** X12. The summary grid is renamed to the seven-name schema only after
    the detail loop: when the detail records are in order and the parsed
    grid does not have seven columns, the extraction raises [ValueError]
    after every detail request was sent. *)
Theorem extract_school_data_wrong_width (portal : Portal)
    (city city_code school school_code windowid : string) (st st' : Session)
    (v1 v2 v3 : string) (df_big df_detail : DataFrame)
    (list_df : list DataFrame) :
  reaches portal st windowid city_code school_code v1 v2 v3 ->
  summary_table
    (supply_response portal st windowid city_code school_code v1 v2)
  = Ok df_big ->
  for_each (detail_step portal windowid v3)
    (unique (Pd.column "ids" df_big)) []
    (st ++ navigation windowid city_code school_code v1 v2
        ++ [GetSupply windowid])
  = (Ok list_df, st') ->
  detail_records city school list_df = Ok df_detail ->
  length (columns df_big) <> 8%nat ->
  extract_school_data portal city city_code school school_code windowid st
  = (Err ValueError,
     st ++ navigation windowid city_code school_code v1 v2
        ++ [GetSupply windowid]
        ++ List.map (PostDetail windowid v3)
             (unique (Pd.column "ids" df_big))).
Proof.
  intros Hreach Hsum Hloop Hdetail Hwidth.
  rewrite (extract_school_data_run _ _ _ _ _ _ _ _ _ _ Hreach), Hsum, Hloop.
  apply detail_loop_ok in Hloop as ->.
  unfold join_tables. rewrite Hdetail. unfold Pd.set_columns.
  rewrite bool_decide_eq_false_2 by (simpl; congruence).
  rewrite <- !app_assoc. reflexivity.
Qed.

Lemma extract_school_data_wrong_width_witness :
  extract_school_data (Probes.with_supply Probes.narrow_grid) "curitiba" "10"
    "Escola A" "1" "w1" []
  = (Err ValueError,
     [] ++ navigation "w1" "10" "1" "v1" "v2" ++ [GetSupply "w1"]
        ++ List.map (PostDetail "w1" "v3")
             (unique (Pd.column "ids"
                        (Sample.get (summary_table Probes.narrow_grid))))).
Proof.
  apply (extract_school_data_wrong_width
           (Probes.with_supply Probes.narrow_grid)
           "curitiba" "10" "Escola A" "1" "w1" []
           (snd (for_each
                   (detail_step (Probes.with_supply Probes.narrow_grid)
                      "w1" "v3")
                   [VStr "f:0"] []
                   ([] ++ navigation "w1" "10" "1" "v1" "v2"
                       ++ [GetSupply "w1"])))
           "v1" "v2" "v3"
           (Sample.get (summary_table Probes.narrow_grid))
           (Sample.get
              (detail_records "curitiba" "Escola A"
                 [Pd.set_scalar "ids" (VStr "f:0")
                    (mkFrame [ "Nome"; "Cargo" ]
                       [ [ VStr "Ana"; VStr "QPM" ];
                         [ VStr "Bia"; VStr "PSS" ] ])]))
           [Pd.set_scalar "ids" (VStr "f:0")
              (mkFrame [ "Nome"; "Cargo" ]
                 [ [ VStr "Ana"; VStr "QPM" ]; [ VStr "Bia"; VStr "PSS" ] ])]).
  - repeat split.
  - vm_compute. reflexivity.
  - vm_compute. reflexivity.
  - vm_compute. reflexivity.
  - vm_compute. lia.
Defined.

(** ** The detail records *)

Lemma length_set_cell (cols : list string) (name : string) (v : value)
    (row : list value) :
  length row = length cols ->
  length (Pd.set_cell cols name v row) = length (Pd.add_label name cols).
Proof.
  intros Hlen. unfold Pd.set_cell, Pd.add_label.
  destruct (Pd.col_index name cols) as [i|] eqn:E.
  - apply col_index_Some in E as [Hi _].
    rewrite bool_decide_eq_true_2 by (eapply list_elem_of_lookup_2, Hi).
    rewrite length_insert. exact Hlen.
  - apply col_index_None in E. rewrite bool_decide_eq_false_2 by exact E.
    rewrite !length_app, Hlen. reflexivity.
Qed.

Lemma cell_set_cell_other (cols : list string) (name other : string)
    (v : value) (row : list value) :
  name <> other -> length row = length cols ->
  Pd.cell (Pd.add_label name cols) other (Pd.set_cell cols name v row)
  = Pd.cell cols other row.
Proof.
  intros Hne Hlen. unfold Pd.cell, Pd.set_cell, Pd.add_label.
  destruct (Pd.col_index name cols) as [j|] eqn:Ej.
  - pose proof Ej as Ej'. apply col_index_Some in Ej' as [Hj _].
    rewrite bool_decide_eq_true_2 by (eapply list_elem_of_lookup_2, Hj).
    destruct (Pd.col_index other cols) as [i|] eqn:Ei; [|reflexivity].
    apply col_index_Some in Ei as [Hi _].
    rewrite list_lookup_insert_ne; [reflexivity|]. congruence.
  - pose proof Ej as Ej'. apply col_index_None in Ej'.
    rewrite bool_decide_eq_false_2 by exact Ej'.
    destruct (Pd.col_index other cols) as [i|] eqn:Ei.
    + pose proof Ei as Ei'. apply col_index_Some in Ei' as [Hi Hmin].
      assert (E : Pd.col_index other (cols ++ [name]) = Some i).
      { apply col_index_Some. split.
        - rewrite lookup_app_l; [exact Hi | eapply lookup_lt_Some, Hi].
        - intros k Hk Hko. apply (Hmin k Hk).
          rewrite lookup_app_l in Hko; [exact Hko|].
          apply lookup_lt_Some in Hi. lia. }
      rewrite E, lookup_app_l; [reflexivity|].
      rewrite Hlen. eapply lookup_lt_Some, Hi.
    + pose proof Ei as Ei'. apply col_index_None in Ei'.
      assert (E : Pd.col_index other (cols ++ [name]) = None).
      { apply col_index_None. rewrite elem_of_app, list_elem_of_singleton.
        intros [H|H]; [exact (Ei' H) | exact (Hne (eq_sym H))]. }
      rewrite E. reflexivity.
Qed.

Lemma well_formed_concat (dfs : list DataFrame) (df : DataFrame) :
  Pd.concat dfs = Ok df -> well_formed df.
Proof.
  unfold Pd.concat. destruct dfs as [|d0 dfs]; [discriminate|].
  generalize (d0 :: dfs). intros l [= <-].
  unfold well_formed. cbn [columns rows].
  apply Forall_forall. intros r Hr.
  apply list_elem_of_In, in_concat in Hr as (rs & Hrs & Hr).
  apply in_map_iff in Hrs as (d & <- & _).
  unfold Pd.reindex in Hr. apply in_map_iff in Hr as (r0 & <- & _).
  apply length_map.
Qed.

Lemma well_formed_set_scalar (name : string) (v : value) (df : DataFrame) :
  well_formed df -> well_formed (Pd.set_scalar name v df).
Proof.
  unfold well_formed, Pd.set_scalar. simpl. rewrite !Forall_forall.
  intros Hwf r Hr. apply list_elem_of_In, in_map_iff in Hr as (r0 & <- & Hr0).
  apply length_set_cell, Hwf, list_elem_of_In, Hr0.
Qed.

(** X13. Every detail record that reaches the join has a name, and
    carries the municipality and the school in its columns "municipio"
    and "escola"; its row is as wide as the header. *)
Theorem detail_records_rows (city school : string) (list_df : list DataFrame)
    (df_detail : DataFrame) :
  detail_records city school list_df = Ok df_detail ->
  well_formed df_detail
  /\ forall r, r ∈ rows df_detail ->
       Pd.isna (Pd.cell (columns df_detail) "Nome" r) = false
       /\ Pd.cell (columns df_detail) "municipio" r = VStr city
       /\ Pd.cell (columns df_detail) "escola" r = VStr school.
Proof.
  unfold detail_records.
  destruct (Pd.concat list_df) as [d0|] eqn:Hc; [|discriminate].
  apply well_formed_concat in Hc.
  unfold Pd.dropna. destruct (Pd.has_column "Nome" d0); [|discriminate].
  intros [= <-].
  set (rows1 := List.filter
                  (fun r => negb (Pd.isna (Pd.cell (columns d0) "Nome" r)))
                  (rows d0)).
  assert (Hwf1 : well_formed (mkFrame (columns d0) rows1)).
  { unfold well_formed in *. simpl. rewrite Forall_forall in *.
    intros r Hr. apply Hc, list_elem_of_In.
    apply list_elem_of_In, filter_In in Hr. tauto. }
  pose proof (well_formed_set_scalar "municipio" (VStr city) _ Hwf1) as Hwf2.
  split; [apply well_formed_set_scalar, Hwf2|].
  intros r Hr. simpl in Hr.
  apply list_elem_of_In, in_map_iff in Hr as (r2 & <- & Hr2).
  apply in_map_iff in Hr2 as (r1 & <- & Hr1).
  assert (Hlen1 : length r1 = length (columns d0)).
  { unfold well_formed in Hwf1. rewrite Forall_forall in Hwf1.
    apply Hwf1, list_elem_of_In, Hr1. }
  assert (Hlen2 : length (Pd.set_cell (columns d0) "municipio" (VStr city) r1)
                  = length (Pd.add_label "municipio" (columns d0)))
    by (apply length_set_cell, Hlen1).
  simpl columns. split; [|split].
  - rewrite !cell_set_cell_other by (assumption || discriminate).
    apply filter_In in Hr1 as [_ Hname]. apply negb_true_iff, Hname.
  - rewrite cell_set_cell_other by (assumption || discriminate).
    apply cell_set_cell, Hlen1.
  - apply cell_set_cell, Hlen2.
Qed.

Lemma detail_records_rows_witness :
  well_formed
    (Sample.get
       (detail_records "curitiba" "Escola A"
          [Sample.detail (VStr "a") ["Ana"; "Bia"]]))
  /\ forall r,
       r ∈ rows (Sample.get
                   (detail_records "curitiba" "Escola A"
                      [Sample.detail (VStr "a") ["Ana"; "Bia"]])) ->
       Pd.isna
         (Pd.cell
            (columns (Sample.get
                        (detail_records "curitiba" "Escola A"
                           [Sample.detail (VStr "a") ["Ana"; "Bia"]])))
            "Nome" r) = false
       /\ Pd.cell
            (columns (Sample.get
                        (detail_records "curitiba" "Escola A"
                           [Sample.detail (VStr "a") ["Ana"; "Bia"]])))
            "municipio" r = VStr "curitiba"
       /\ Pd.cell
            (columns (Sample.get
                        (detail_records "curitiba" "Escola A"
                           [Sample.detail (VStr "a") ["Ana"; "Bia"]])))
            "escola" r = VStr "Escola A".
Proof.
  apply (detail_records_rows "curitiba" "Escola A"
           [Sample.detail (VStr "a") ["Ana"; "Bia"]]).
  reflexivity.
Defined.

(** X14. When there are detail tables and none has a column "Nome", the
    detail records cannot be filtered: [KeyError] on "Nome". *)
Theorem detail_records_without_name (city school : string)
    (list_df : list DataFrame) :
  list_df <> [] ->
  (forall df, df ∈ list_df -> "Nome" ∉ columns df) ->
  detail_records city school list_df = Err (KeyError "Nome").
Proof.
  intros Hne Hnone. unfold detail_records, Pd.concat.
  destruct list_df as [|d0 dfs]; [contradiction|].
  unfold Pd.dropna, Pd.has_column. simpl columns.
  rewrite bool_decide_eq_false_2; [reflexivity|].
  unfold Pd.union_columns. rewrite elem_of_unique.
  intros Hin. apply list_elem_of_In, in_concat in Hin as (cols & Hcols & Hin).
  apply in_map_iff in Hcols as (df & <- & Hdf).
  apply (Hnone df); apply list_elem_of_In; assumption.
Qed.

Lemma detail_records_without_name_witness :
  detail_records "curitiba" "Escola A"
    [mkFrame [ "Cargo"; "ids" ] [ [ VStr "QPM"; VStr "a" ] ]]
  = Err (KeyError "Nome").
Proof.
  apply detail_records_without_name; [discriminate|].
  intros df Hdf Hin. apply list_elem_of_singleton in Hdf as ->.
  apply list_elem_of_In in Hin. simpl in Hin.
  destruct Hin as [H|[H|[]]]; discriminate H.
Defined.

(** ** The joined table *)

Lemma length_join_rows (df_detail : DataFrame) (kr w : nat)
    (l : list value) :
  length
    (match matches df_detail l with
     | [] => [l ++ repeat VNaN w]
     | ms => List.map (fun r => l ++ Pd.drop_nth kr r) ms
     end)
  = Nat.max 1 (length (matches df_detail l)).
Proof.
  destruct (matches df_detail l) as [|m ms]; [reflexivity|].
  rewrite length_map. simpl. reflexivity.
Qed.

Lemma join_rows_begin (df_detail : DataFrame) (kr w : nat)
    (l row : list value) :
  In row
    (match matches df_detail l with
     | [] => [l ++ repeat VNaN w]
     | ms => List.map (fun r => l ++ Pd.drop_nth kr r) ms
     end) ->
  exists tail, row = l ++ tail.
Proof.
  destruct (matches df_detail l) as [|m ms].
  - intros [<-|[]]. eauto.
  - intros H. apply in_map_iff in H as (r & <- & _). eauto.
Qed.

Lemma join_rows_nonempty (df_detail : DataFrame) (kr w : nat)
    (l : list value) :
  exists tail,
    In (l ++ tail)
      (match matches df_detail l with
       | [] => [l ++ repeat VNaN w]
       | ms => List.map (fun r => l ++ Pd.drop_nth kr r) ms
       end).
Proof.
  destruct (matches df_detail l) as [|m ms].
  - eexists. left. reflexivity.
  - eexists. apply in_map_iff. exists m.
    split; [reflexivity | left; reflexivity].
Qed.

Lemma list_sum_max_ge {A} (f : A -> nat) (l : list A) :
  (length l <= list_sum (List.map (fun x => Nat.max 1 (f x)) l))%nat.
Proof. induction l as [|x l IH]; simpl; lia. Qed.

(** X15. The left join never drops a summary row and never invents one:
    the joined table has, for each summary row, one row for each detail
    record with a matching identifier, or one row when there is none; so
    it has at least as many rows as the summary table, every joined row
    begins with the cells of a summary row, missing cells filled, and
    every summary row begins some joined row. *)
Theorem join_tables_keeps_summary_rows (city school : string)
    (df_big : DataFrame) (list_df : list DataFrame)
    (df_detail joined : DataFrame) :
  detail_records city school list_df = Ok df_detail ->
  join_tables city school df_big list_df = Ok joined ->
  length (rows joined)
  = list_sum
      (List.map (fun l => Nat.max 1 (length (matches df_detail l)))
         (rows df_big))
  /\ (length (rows df_big) <= length (rows joined))%nat
  /\ (forall row, row ∈ rows joined ->
        exists l tail,
          l ∈ rows df_big /\ row = List.map (Pd.fill 0) l ++ tail)
  /\ (forall l, l ∈ rows df_big ->
        exists tail, (List.map (Pd.fill 0) l ++ tail) ∈ rows joined).
Proof.
  intros Hd Hjoin.
  destruct (join_tables_ok _ _ _ _ _ Hjoin)
    as (df_detail' & kr & Hd' & Hkr & _ & Hrows).
  rewrite Hd in Hd'. injection Hd' as <-.
  assert (Hlen : length (rows joined)
                 = list_sum
                     (List.map
                        (fun l => Nat.max 1 (length (matches df_detail l)))
                        (rows df_big))).
  { rewrite Hrows, length_map, length_concat, List.map_map. f_equal.
    apply map_ext. intros l. apply length_join_rows. }
  split; [exact Hlen|]. split; [rewrite Hlen; apply list_sum_max_ge|].
  split.
  - intros row Hrow. rewrite Hrows in Hrow.
    apply list_elem_of_In, in_map_iff in Hrow as (row0 & <- & Hrow0).
    apply in_concat in Hrow0 as (rs & Hrs & Hrow0).
    apply in_map_iff in Hrs as (l & <- & Hl).
    apply join_rows_begin in Hrow0 as [tail ->].
    exists l, (List.map (Pd.fill 0) tail).
    split; [apply list_elem_of_In, Hl | apply List.map_app].
  - intros l Hl.
    destruct (join_rows_nonempty df_detail kr
                (length (columns df_detail) - 1) l) as [tail Htail].
    exists (List.map (Pd.fill 0) tail). rewrite Hrows, <- List.map_app.
    apply list_elem_of_In, in_map, in_concat. eexists. split; [|exact Htail].
    apply in_map_iff. exists l. split; [reflexivity|].
    apply list_elem_of_In, Hl.
Qed.

Lemma join_tables_keeps_summary_rows_witness :
  length
    (rows (Sample.get
             (join_tables "curitiba" "Escola A"
                (Sample.big [VStr "a"; VStr "b"; VStr "c"])
                [Sample.detail (VStr "a") ["Ana"; "Bia"];
                 Sample.detail (VStr "b") []])))
  = list_sum
      (List.map
         (fun l =>
            Nat.max 1
              (length
                 (matches
                    (Sample.get
                       (detail_records "curitiba" "Escola A"
                          [Sample.detail (VStr "a") ["Ana"; "Bia"];
                           Sample.detail (VStr "b") []]))
                    l)))
         (rows (Sample.big [VStr "a"; VStr "b"; VStr "c"]))).
Proof.
  apply (join_tables_keeps_summary_rows "curitiba" "Escola A"
           (Sample.big [VStr "a"; VStr "b"; VStr "c"])
           [Sample.detail (VStr "a") ["Ana"; "Bia"];
            Sample.detail (VStr "b") []]
           _ _ eq_refl eq_refl).
Defined.

(** X16. When no column of the detail records other than the key bears
    one of the eight names of the summary schema, the joined table has
    these eight names, in order, followed by the columns of the detail
    records without their key, in order. *)
Theorem join_tables_columns (city school : string) (df_big : DataFrame)
    (list_df : list DataFrame) (df_detail joined : DataFrame) :
  detail_records city school list_df = Ok df_detail ->
  join_tables city school df_big list_df = Ok joined ->
  (forall c, c ∈ columns df_detail -> c ∈ summary_columns -> c = "ids") ->
  exists kr,
    Pd.col_index "ids" (columns df_detail) = Some kr
    /\ columns joined
       = summary_columns ++ Pd.drop_nth kr (columns df_detail).
Proof.
  intros Hd Hjoin Hclash.
  destruct (join_tables_ok _ _ _ _ _ Hjoin)
    as (df_detail' & kr & Hd' & Hkr & Hcols & _).
  rewrite Hd in Hd'. injection Hd' as <-.
  exists kr. split; [exact Hkr|]. rewrite Hcols. f_equal.
  - rewrite <- (map_id summary_columns) at 2. apply map_ext_in.
    intros c Hc. unfold Pd.suffixed.
    case_bool_decide as Hk; [|reflexivity].
    case_bool_decide as Hin; [|reflexivity].
    destruct Hk. apply Hclash; [exact Hin | apply list_elem_of_In, Hc].
  - rewrite <- (map_id (Pd.drop_nth kr (columns df_detail))) at 2.
    apply map_ext_in. intros c Hc. unfold Pd.suffixed.
    case_bool_decide as Hk; [|reflexivity].
    case_bool_decide as Hin; [|reflexivity].
    destruct Hk. apply Hclash; [|exact Hin].
    apply list_elem_of_In in Hc. unfold Pd.drop_nth in Hc.
    apply elem_of_app in Hc as [Hc|Hc].
    + eapply subseteq_take, Hc.
    + eapply subseteq_drop, Hc.
Qed.

Lemma join_tables_columns_witness :
  exists kr,
    Pd.col_index "ids"
      (columns (Sample.get
                  (detail_records "curitiba" "Escola A"
                     [Sample.detail (VStr "a") ["Ana"]])))
    = Some kr
    /\ columns (Sample.get
                  (join_tables "curitiba" "Escola A"
                     (Sample.big [VStr "a"])
                     [Sample.detail (VStr "a") ["Ana"]]))
       = summary_columns
         ++ Pd.drop_nth kr
              (columns (Sample.get
                          (detail_records "curitiba" "Escola A"
                             [Sample.detail (VStr "a") ["Ana"]]))).
Proof.
  apply (join_tables_columns "curitiba" "Escola A" (Sample.big [VStr "a"])
           [Sample.detail (VStr "a") ["Ana"]] _ _ eq_refl eq_refl).
  intros c Hc Hs. apply list_elem_of_In in Hc. vm_compute in Hc.
  destruct Hc as [<-|[<-|[<-|[<-|[]]]]]; try reflexivity;
    apply list_elem_of_In in Hs; vm_compute in Hs;
    repeat (destruct Hs as [Hs|Hs]; [discriminate Hs|]); destruct Hs.
Defined.

(** ** The export *)

Lemma concat_rows (dfs : list DataFrame) (df : DataFrame) :
  Pd.concat dfs = Ok df ->
  dfs <> []
  /\ columns df = Pd.union_columns dfs
  /\ length (rows df)
     = list_sum (List.map (fun d => length (rows d)) dfs).
Proof.
  unfold Pd.concat. destruct dfs as [|d0 dfs]; [discriminate|].
  assert (Hl : d0 :: dfs <> []) by discriminate.
  revert Hl. generalize (d0 :: dfs).
  intros l Hl [= <-]. split; [exact Hl|]. split; [reflexivity|].
  cbn [rows]. rewrite length_concat, List.map_map. f_equal.
  apply map_ext. intros d. unfold Pd.reindex. apply length_map.
Qed.

(** X17. A run that writes an export has fetched the first page with
    success and collected at least one school table; the export has the
    columns of these tables, each once, in order of first appearance, and
    as many rows as the tables hold together. *)
Theorem main_export (portal : Portal) (file : list CatalogRow)
    (export : DataFrame) (st : Session) :
  main portal file [] = (Ok export, st) ->
  exists windowid viewstate dict st0 tables,
    initial_request portal initial_url []
    = (Ok (windowid, viewstate, dict), st0)
    /\ extract_city_data portal windowid viewstate dict
         (fst (extract_cities_schools file))
         (snd (extract_cities_schools file)) st0
       = (Ok tables, st)
    /\ tables <> []
    /\ columns export = Pd.union_columns tables
    /\ length (rows export)
       = list_sum (List.map (fun d => length (rows d)) tables).
Proof.
  unfold main. destruct (extract_cities_schools file) as [df_excel cities].
  intros H.
  apply bind_ok in H as ([[w v] dict] & st0 & Hinit & H).
  apply bind_ok in H as (tables & st1 & Hcity & H).
  apply lift_ok in H as [H ->].
  apply concat_rows in H as (Hne & Hcols & Hrows).
  exists w, v, dict, st0, tables. auto 10.
Qed.

Lemma main_export_witness :
  exists windowid viewstate dict st0 tables,
    initial_request (Sample.portal "none") initial_url []
    = (Ok (windowid, viewstate, dict), st0)
    /\ extract_city_data (Sample.portal "none") windowid viewstate dict
         (fst (extract_cities_schools Sample.catalogue))
         (snd (extract_cities_schools Sample.catalogue)) st0
       = (Ok tables, snd (main (Sample.portal "none") Sample.catalogue []))
    /\ tables <> []
    /\ columns (Sample.get
                  (fst (main (Sample.portal "none") Sample.catalogue [])))
       = Pd.union_columns tables
    /\ length
         (rows (Sample.get
                  (fst (main (Sample.portal "none") Sample.catalogue []))))
       = list_sum (List.map (fun d => length (rows d)) tables).
Proof.
  apply (main_export (Sample.portal "none") Sample.catalogue).
  vm_compute. reflexivity.
Defined.

(** X18. With an empty catalogue no run writes an export, whatever the
    portal answers: either the first request fails, or there is no table
    to concatenate and [ValueError] is raised. *)
Theorem main_empty_catalogue (portal : Portal) :
  exists e, fst (main portal [] []) = Err e
            /\ snd (main portal [] []) = [GetInitial initial_url].
Proof.
  pose proof (initial_request_sent portal initial_url []) as Hone.
  assert (Hmain : main portal [] []
                  = match initial_request portal initial_url [] with
                    | (Ok _, st') => (Err ValueError, st')
                    | (Err e, st') => (Err e, st')
                    end).
  { unfold main. cbn [extract_cities_schools List.map unique
                        municipio_normalizada].
    unfold bind at 1.
    destruct (initial_request portal initial_url [])
      as [[[[w v] dict]|e] st0]; reflexivity. }
  rewrite Hmain.
  destruct (initial_request portal initial_url []) as [[a|e] st0];
    simpl in Hone; subst st0; eexists; split; reflexivity.
Qed.

(** ** Text between a marker and the next quote *)

Lemma prefix_nil (s : string) : String.prefix EmptyString s = true.
Proof. destruct s; reflexivity. Qed.

Lemma prefix_cons (a b : ascii) (s1 s2 : string) :
  String.prefix (String a s1) (String b s2)
  = if ascii_dec a b then String.prefix s1 s2 else false.
Proof. reflexivity. Qed.

Lemma prefix_append (s t : string) : String.prefix s (s +:+ t) = true.
Proof.
  induction s as [|c s IH]; [apply prefix_nil|].
  change (String c s +:+ t) with (String c (s +:+ t)).
  rewrite prefix_cons. destruct (ascii_dec c c); [exact IH | contradiction].
Qed.

(** An occurrence that fits in the first part lies in it. *)
Lemma prefix_within (sep a b : string) :
  String.prefix sep (a +:+ b) = true ->
  (String.length sep <= String.length a)%nat ->
  String.prefix sep a = true.
Proof.
  revert a. induction sep as [|c sep IH]; intros a H Hlen;
    [apply prefix_nil|].
  destruct a as [|d a]; [simpl in Hlen; lia|].
  change (String d a +:+ b) with (String d (a +:+ b)) in H.
  rewrite prefix_cons in *. destruct (ascii_dec c d); [|discriminate H].
  apply IH; [exact H | simpl in Hlen; lia].
Qed.

Lemma contains_cons (sub : string) (c : ascii) (t : string) :
  Str.contains sub (String c t)
  = String.prefix sub (String c t) || Str.contains sub t.
Proof. reflexivity. Qed.

Lemma contains_prefix (sub s : string) :
  String.prefix sub s = true -> Str.contains sub s = true.
Proof.
  intros H. destruct s as [|c t].
  - change (Str.contains sub EmptyString)
      with (String.prefix sub EmptyString || false).
    rewrite H. reflexivity.
  - rewrite contains_cons, H. reflexivity.
Qed.

Lemma contains_append (sub t1 t2 : string) :
  Str.contains sub t2 = true -> Str.contains sub (t1 +:+ t2) = true.
Proof.
  intros H. induction t1 as [|c t1 IH]; [exact H|].
  change (String c t1 +:+ t2) with (String c (t1 +:+ t2)).
  rewrite contains_cons, IH. apply orb_true_r.
Qed.

Lemma skip_separator (sep a rest : string) (cur : list ascii) :
  Str.split_aux sep (String.length a) cur (a +:+ rest)
  = Str.split_aux sep 0 cur rest.
Proof.
  induction a as [|c a IH]; [reflexivity|].
  change (String c a +:+ rest) with (String c (a +:+ rest)).
  rewrite split_aux_cons. exact IH.
Qed.

Lemma split_at_separator (c0 : ascii) (sep' rest : string)
    (cur : list ascii) :
  Str.split_aux (String c0 sep') 0 cur (String c0 sep' +:+ rest)
  = string_of_list_ascii (rev cur)
      :: Str.split_aux (String c0 sep') 0 [] rest.
Proof.
  change (String c0 sep' +:+ rest) with (String c0 (sep' +:+ rest)) at 1.
  rewrite split_aux_cons.
  change (String c0 (sep' +:+ rest)) with (String c0 sep' +:+ rest).
  rewrite prefix_append. f_equal.
  change (String.length (String c0 sep') - 1)%nat
    with (S (String.length sep') - 1)%nat.
  rewrite Nat.sub_1_r. simpl Nat.pred. apply skip_separator.
Qed.

Lemma starts_after_tail (sep : string) (c : ascii) (pre s : string) :
  starts_after sep (String c pre) s -> starts_after sep pre s.
Proof.
  intros H t1 t2 Hpre Hne. apply (H (String c t1) t2); [|exact Hne].
  rewrite Hpre. reflexivity.
Qed.

Lemma walk_to_separator (sep pre s : string) (cur : list ascii) :
  starts_after sep pre s ->
  Str.split_aux sep 0 cur (pre +:+ s)
  = Str.split_aux sep 0 (rev (list_ascii_of_string pre) ++ cur) s.
Proof.
  revert cur. induction pre as [|c pre IH]; intros cur H; [reflexivity|].
  change (String c pre +:+ s) with (String c (pre +:+ s)).
  rewrite split_aux_cons.
  change (String c (pre +:+ s)) with (String c pre +:+ s).
  rewrite (H EmptyString (String c pre) eq_refl) by discriminate.
  rewrite IH by (eapply starts_after_tail, H).
  simpl list_ascii_of_string. simpl rev. rewrite <- app_assoc. reflexivity.
Qed.

Lemma string_of_list_ascii_app (l1 l2 : list ascii) :
  string_of_list_ascii (l1 ++ l2)
  = string_of_list_ascii l1 +:+ string_of_list_ascii l2.
Proof.
  induction l1 as [|c l1 IH]; [reflexivity|].
  simpl. rewrite IH. reflexivity.
Qed.

Lemma string_of_rev_walk (pre : string) (cur : list ascii) :
  string_of_list_ascii (rev (rev (list_ascii_of_string pre) ++ cur))
  = string_of_list_ascii (rev cur) +:+ pre.
Proof.
  rewrite rev_app_distr, rev_involutive, string_of_list_ascii_app.
  rewrite string_of_list_ascii_of_string. reflexivity.
Qed.

(** The first piece of a split ends where the first separator starts. *)
Lemma split_first_separator (c0 : ascii) (sep' pre rest : string) :
  starts_after (String c0 sep') pre (String c0 sep' +:+ rest) ->
  Str.split (String c0 sep') (pre +:+ String c0 sep' +:+ rest)
  = pre :: Str.split (String c0 sep') rest.
Proof.
  intros H. unfold Str.split.
  rewrite (walk_to_separator _ _ _ [] H), split_at_separator.
  rewrite string_of_rev_walk. reflexivity.
Qed.

Lemma append_nil_r (s : string) : s +:+ EmptyString = s.
Proof.
  induction s as [|c s IH]; [reflexivity|].
  change (String c (s +:+ EmptyString) = String c s). rewrite IH. reflexivity.
Qed.

Lemma head_split_aux (sep s : string) (cur : list ascii) :
  exists more,
    head (Str.split_aux sep 0 cur s)
    = Some (string_of_list_ascii (rev cur) +:+ more).
Proof.
  revert cur. induction s as [|c t IH]; intros cur.
  - exists EmptyString. rewrite append_nil_r. reflexivity.
  - rewrite split_aux_cons. destruct (String.prefix sep (String c t)).
    + exists EmptyString. rewrite append_nil_r. reflexivity.
    + destruct (IH (c :: cur)) as [more Hmore]. exists (String c more).
      rewrite Hmore. f_equal.
      change (rev (c :: cur)) with (rev cur ++ [c]).
      rewrite string_of_list_ascii_app, append_assoc. reflexivity.
Qed.

(** The first piece of a split holds what comes before any separator. *)
Lemma head_split_keeps (sep a s : string) :
  starts_after sep a s ->
  exists more, head (Str.split sep (a +:+ s)) = Some (a +:+ more).
Proof.
  intros H. unfold Str.split. rewrite (walk_to_separator _ _ _ [] H).
  destruct (head_split_aux sep s (rev (list_ascii_of_string a) ++ []))
    as [more Hmore].
  exists more. rewrite Hmore, string_of_rev_walk. reflexivity.
Qed.

Lemma contains_suffix_false (sep t1 t2 : string) :
  Str.contains sep (t1 +:+ t2) = false -> Str.contains sep t2 = false.
Proof.
  intros H. destruct (Str.contains sep t2) eqn:E; [|reflexivity].
  rewrite (contains_append _ t1 _ E) in H. discriminate H.
Qed.

(** A string without the character [c] has no separator [c] in it. *)
Lemma starts_after_lacks (c : ascii) (pre s : string) :
  lacks c pre -> starts_after (String c EmptyString) pre s.
Proof.
  intros H t1 t2 -> Hne. apply contains_suffix_false in H.
  destruct t2 as [|d t2]; [contradiction|].
  rewrite contains_cons in H. apply orb_false_elim in H as [H _].
  change (String d t2 +:+ s) with (String d (t2 +:+ s)).
  rewrite prefix_cons in *. destruct (ascii_dec c d); [|reflexivity].
  rewrite prefix_nil in H. discriminate H.
Qed.

(** When the separator, less its last character, follows [pre] and the
    separator does not occur in the whole, no occurrence starts in
    [pre]. *)
Lemma starts_after_marker (s0 : string) (c : ascii) (pre rest : string) :
  Str.contains (s0 +:+ String c EmptyString) (pre +:+ s0) = false ->
  starts_after (s0 +:+ String c EmptyString) pre
    ((s0 +:+ String c EmptyString) +:+ rest).
Proof.
  intros H t1 t2 -> Hne.
  destruct (String.prefix _ _) eqn:E; [|reflexivity].
  rewrite append_assoc in E.
  rewrite <- (append_assoc t2 s0) in E.
  apply prefix_within in E.
  - rewrite append_assoc in H.
    rewrite (contains_append _ t1 _ (contains_prefix _ _ E)) in H.
    discriminate H.
  - rewrite !length_append. destruct t2; [contradiction|]. simpl. lia.
Qed.

Lemma ends_only_tail (c a : ascii) (sep : string) :
  ends_only c (String a sep) = true -> ends_only c sep = true.
Proof.
  simpl. destruct (Ascii.eqb a c); [|auto].
  destruct sep; [reflexivity | discriminate].
Qed.

(** An occurrence that starts before a character the separator can only
    end with goes no further than this character. *)
Lemma prefix_stops_at (c : ascii) (sep t post : string) :
  ends_only c sep = true ->
  String.prefix sep (t +:+ String c post) = true ->
  String.prefix sep (t +:+ String c EmptyString) = true.
Proof.
  revert t. induction sep as [|a sep IH]; intros t Hend H;
    [apply prefix_nil|].
  destruct t as [|b t].
  - change (EmptyString +:+ String c post) with (String c post) in H.
    change (EmptyString +:+ String c EmptyString) with (String c EmptyString).
    rewrite prefix_cons in *. destruct (ascii_dec a c) as [->|]; [|exact H].
    simpl in Hend. rewrite Ascii.eqb_refl in Hend.
    destruct sep; [reflexivity | discriminate Hend].
  - change (String b t +:+ String c post)
      with (String b (t +:+ String c post)) in H.
    change (String b t +:+ String c EmptyString)
      with (String b (t +:+ String c EmptyString)).
    rewrite prefix_cons in *. destruct (ascii_dec a b); [|exact H].
    apply IH; [eapply ends_only_tail, Hend | exact H].
Qed.

Lemma suffix_of_snoc (c : ascii) (w t1 t2 : string) :
  w +:+ String c EmptyString = t1 +:+ t2 -> t2 <> EmptyString ->
  exists t2', t2 = t2' +:+ String c EmptyString /\ w = t1 +:+ t2'.
Proof.
  revert w. induction t1 as [|a t1 IH]; intros w H Hne.
  - exists w. split; [symmetry; exact H | reflexivity].
  - destruct w as [|b w].
    + injection H as _ H. destruct t1; [|discriminate H].
      destruct t2; [contradiction | discriminate H].
    + injection H as -> H. destruct (IH w H Hne) as (t2' & -> & ->).
      exists t2'. auto.
Qed.

Lemma starts_after_value (c : ascii) (sep w post : string) :
  ends_only c sep = true ->
  Str.contains sep (w +:+ String c EmptyString) = false ->
  starts_after sep (w +:+ String c EmptyString) post.
Proof.
  intros Hend H t1 t2 Hsplit Hne.
  destruct (suffix_of_snoc _ _ _ _ Hsplit Hne) as (t2' & -> & ->).
  destruct (String.prefix _ _) eqn:E; [|reflexivity].
  rewrite append_assoc in E. apply (prefix_stops_at _ _ _ _ Hend) in E.
  rewrite append_assoc in H.
  rewrite (contains_append _ t1 _ (contains_prefix _ _ E)) in H.
  discriminate H.
Qed.

(** The two splits of the source, on a text where the marker is followed
    by a value and a quote: they give the value. *)
Lemma between_marker_and_quote (c0 : ascii) (s0 pre w post : string)
    (c : ascii) (sep' : string) :
  String c0 sep' = s0 +:+ String c EmptyString ->
  ends_only (ascii_of_nat 34) (String c0 sep') = true ->
  Str.contains (String c0 sep') (pre +:+ s0) = false ->
  lacks (ascii_of_nat 34) w ->
  Str.contains (String c0 sep') (w +:+ Str.dquote) = false ->
  exists piece,
    Str.split (String c0 sep')
      (pre +:+ String c0 sep' +:+ w +:+ Str.dquote +:+ post) !! 1%nat
    = Some piece
    /\ head (Str.split Str.dquote piece) = Some w.
Proof.
  intros Hsep Hend Hpre Hw Hval.
  rewrite split_first_separator.
  2:{ rewrite Hsep in *. apply starts_after_marker, Hpre. }
  change ((?x :: ?l) !! 1%nat) with (l !! 0%nat). rewrite <- head_lookup.
  rewrite <- (append_assoc w Str.dquote post).
  destruct (head_split_keeps (String c0 sep') (w +:+ Str.dquote) post)
    as [more Hmore]; [apply starts_after_value; assumption|].
  exists ((w +:+ Str.dquote) +:+ more). split; [exact Hmore|].
  rewrite append_assoc. unfold Str.dquote, Str.chr.
  rewrite (split_first_separator (ascii_of_nat 34) EmptyString w more)
    by (apply starts_after_lacks, Hw).
  reflexivity.
Qed.

(** X19. A cell without nested block element in which the first id marker
    is followed by a value and a quote gives that value as its
    identifier, whatever comes before and after, provided the value holds
    no quote and does not end with the letters of the marker. *)
Theorem cell_ids_first_identifier (pre w post : string) :
  block_free (pre +:+ id_marker +:+ w +:+ Str.dquote +:+ post) = true ->
  Str.contains id_marker (pre +:+ "id=") = false ->
  lacks (ascii_of_nat 34) w ->
  Str.contains id_marker (w +:+ Str.dquote) = false ->
  cell_ids (pre +:+ id_marker +:+ w +:+ Str.dquote +:+ post) = [Some w].
Proof.
  intros Hblock Hpre Hw Hval.
  destruct (between_marker_and_quote "i"%char "id=" pre w post
              (ascii_of_nat 34) ("d=" +:+ Str.dquote)
              eq_refl eq_refl Hpre Hw Hval) as (piece & Hpiece & Hhead).
  change (String "i" ("d=" +:+ Str.dquote)) with id_marker in Hpiece.
  destruct (cell_ids_cases (pre +:+ id_marker +:+ w +:+ Str.dquote +:+ post))
    as [[Hb _]|[(_ & Hm & _)|(_ & _ & piece' & i & Hp' & Hi & ->)]].
  - congruence.
  - rewrite contains_append in Hm; [discriminate Hm|].
    apply contains_prefix, prefix_append.
  - rewrite Hpiece in Hp'. injection Hp' as <-.
    rewrite Hhead in Hi. injection Hi as <-. reflexivity.
Qed.

Lemma cell_ids_first_identifier_witness :
  cell_ids (Sample.link_cell "f:0") = [Some "f:0"].
Proof.
  apply (cell_ids_first_identifier "<td><a " "f:0" ">+</a></td>");
    reflexivity.
Defined.

(** X20. When the text of the first page holds the marker windowId=
    followed by a value and a quote, and the value holds neither a quote
    nor the marker, the window identifier a successful [initial_request]
    returns is that value. *)
Theorem initial_request_window_id (portal : Portal) (url : string)
    (st : Session) (pre w post : string) :
  text (portal st (GetInitial url))
  = pre +:+ "windowId=" +:+ w +:+ Str.dquote +:+ post ->
  Str.contains "windowId=" (pre +:+ "windowId") = false ->
  lacks (ascii_of_nat 34) w ->
  Str.contains "windowId=" (w +:+ Str.dquote) = false ->
  match fst (initial_request portal url st) with
  | Ok (windowid, _, _) => windowid = w
  | Err _ => True
  end.
Proof.
  intros Htext Hpre Hw Hval.
  destruct (initial_request portal url st) as [[[[windowid v] dict]|e] st']
    eqn:H; [|exact I].
  simpl. unfold initial_request in H.
  apply bind_ok in H as (r & s1 & H1 & H). apply send_ok in H1 as [-> ->].
  destruct (status_code _ =? 200)%Z; [|discriminate H].
  apply bind_ok in H as (w' & s2 & Hwin & H).
  apply bind_ok in H as (opts & s3 & _ & H).
  apply bind_ok in H as (d & s4 & _ & H).
  apply bind_ok in H as (v' & s5 & _ & H).
  injection H as -> _ _ _.
  destruct (Str.contains "windowId" _); [|discriminate Hwin].
  apply bind_ok in Hwin as (x & s6 & Hx & Hhead).
  rewrite Htext in Hx.
  destruct (between_marker_and_quote "w"%char "windowId" pre w post
              "="%char "indowId=" eq_refl eq_refl Hpre Hw Hval)
    as (piece & Hpiece & Hw').
  rewrite Hpiece in Hx. injection Hx as <- _.
  rewrite Hw' in Hhead. injection Hhead as <- _. reflexivity.
Qed.

Lemma initial_request_window_id_witness :
  match fst (initial_request (Sample.portal "none") initial_url []) with
  | Ok (windowid, _, _) => windowid = "w1"
  | Err _ => True
  end.
Proof.
  apply (initial_request_window_id (Sample.portal "none") initial_url []
           ("<a href=" +:+ Str.dquote +:+ "initial2.jsf?") "w1" ">");
    vm_compute; reflexivity.
Defined.

Lemma split_without_separator (sep s : string) (cur : list ascii) :
  Str.contains sep s = false ->
  Str.split_aux sep 0 cur s
  = [string_of_list_ascii (rev cur) +:+ s].
Proof.
  revert cur. induction s as [|c t IH]; intros cur H.
  - rewrite append_nil_r. reflexivity.
  - rewrite contains_cons in H. apply orb_false_elim in H as [Hp Ht].
    rewrite split_aux_cons, Hp, IH by exact Ht.
    change (rev (c :: cur)) with (rev cur ++ [c]).
    rewrite string_of_list_ascii_app, append_assoc. reflexivity.
Qed.

(** X21. A first page of status 200 whose text mentions windowId but
    never windowId= makes [initial_request] raise [IndexError]: the split
    has one piece only. *)
Theorem initial_request_no_assignment (portal : Portal) (url : string)
    (st : Session) :
  (status_code (portal st (GetInitial url)) = 200)%Z ->
  Str.contains "windowId" (text (portal st (GetInitial url))) = true ->
  Str.contains "windowId=" (text (portal st (GetInitial url))) = false ->
  fst (initial_request portal url st) = Err IndexError.
Proof.
  intros Hstatus Hw Hnone. apply Z.eqb_eq in Hstatus.
  unfold initial_request, bind at 1, send at 1. rewrite Hstatus.
  unfold bind at 1. rewrite Hw. unfold bind at 1, Str.split at 1.
  rewrite (split_without_separator _ _ [] Hnone). reflexivity.
Qed.

Lemma initial_request_no_assignment_witness :
  fst (initial_request Probes.no_assignment initial_url []) = Err IndexError.
Proof.
  apply initial_request_no_assignment; vm_compute; reflexivity.
Defined.

Lemma city_codes_loop_error (opts : list OptionTag)
    (d : gmap string string) (st : Session) :
  Exists (fun o => Str.contains "value" (opt_markup o) = true
                   /\ opt_value o = None) opts ->
  for_each city_code_step opts d st = (Err (KeyError "value"), st).
Proof.
  intros H. revert d. induction H as [o opts [Hm Hv]|o opts _ IH]; intros d.
  - simpl. unfold bind at 1, city_code_step. rewrite Hm.
    unfold bind, value_of. rewrite Hv. reflexivity.
  - simpl. unfold bind at 1, city_code_step at 1.
    destruct (Str.contains "value" (opt_markup o)).
    + unfold bind, value_of, from_option.
      destruct (opt_value o); [apply IH | reflexivity].
    + apply IH.
Qed.

(** X22. The test for a code is made on the markup of the option, not on
    its attributes: when the municipality list holds an option whose
    markup mentions value and which has no value attribute,
    [initial_request] raises [KeyError] on "value". *)
Theorem initial_request_option_without_value (portal : Portal)
    (url : string) (st : Session) (opts : list OptionTag) :
  (status_code (portal st (GetInitial url)) = 200)%Z ->
  Str.contains "windowId" (text (portal st (GetInitial url))) = true ->
  Str.contains "windowId=" (text (portal st (GetInitial url))) = true ->
  municipio_select (portal st (GetInitial url)) = Some opts ->
  Exists (fun o => Str.contains "value" (opt_markup o) = true
                   /\ opt_value o = None) opts ->
  fst (initial_request portal url st) = Err (KeyError "value").
Proof.
  intros Hstatus Hw Hassign Hsel Hbad. apply Z.eqb_eq in Hstatus.
  unfold initial_request, bind at 1, send at 1. rewrite Hstatus.
  unfold bind at 1. rewrite Hw. unfold bind at 1.
  destruct (split_second "windowId=" _ [] ltac:(discriminate) Hassign)
    as [x Hx].
  unfold Str.split at 1. rewrite Hx. simpl from_option. unfold ret at 1.
  destruct (split_head Str.dquote x) as [w' Hw']. rewrite Hw'.
  simpl from_option. unfold ret at 1.
  unfold bind at 1. rewrite Hsel. simpl from_option. unfold ret at 1.
  unfold bind at 1. rewrite (city_codes_loop_error _ _ _ Hbad). reflexivity.
Qed.

Lemma initial_request_option_without_value_witness :
  fst (initial_request Probes.no_value initial_url [])
  = Err (KeyError "value").
Proof.
  apply (initial_request_option_without_value Probes.no_value initial_url []
           [Sample.option_tag "Curitiba" "10";
            mkOption "<option>Boa value</option>" "Boa value" None]);
    try (vm_compute; reflexivity).
  apply Exists_cons_tl, Exists_cons_hd. split; reflexivity.
Defined.
